(** * Beam report generator: a shallow embedding of [main.py]

    The program reads a table of pre-computed beam results (position,
    shear force, bending moment) with pandas, derives a few summary
    figures and emits LaTeX through PyLaTeX.  This file embeds the
    functions of [main.py] together with the parts of Python, pandas and
    PyLaTeX they rest on, and proves the properties the specification
    states about them.

    Numbers are IEEE-754 binary64 values, as in a pandas [float64] column
    and a Python [float]; they are represented with the kernel's
    [spec_float] (sign, mantissa, exponent) and the operations of
    [SpecFloat] at precision 53 and maximal exponent 1024. *)

From Stdlib Require Import ZArith NArith PArith QArith Qround Qabs Qpower Bool List Lia.
From Stdlib Require Import Strings.String Strings.Ascii.
From Stdlib Require Import Floats.SpecFloat.
Import ListNotations.

Local Open Scope string_scope.
Local Open Scope Z_scope.

Set Warnings "-register-all".

(* ===================================================================== *)
(** * Python numbers and their text forms *)
(* ===================================================================== *)

Module Py.

(** ** Decimal digits *)

Definition digit_char (n : Z) : ascii :=
  ascii_of_nat (48 + Z.to_nat (n mod 10)).

(** The [d] low decimal digits of [n], most significant first, padded
    with zeros on the left. *)
Fixpoint digits_fixed (d : nat) (n : Z) : string :=
  match d with
  | O => ""
  | S d' => digits_fixed d' (n / 10) ++ String (digit_char n) ""
  end.

(** Number of decimal digits of a non-negative integer (1 for 0). *)
Fixpoint count_digits (fuel : nat) (n : Z) : nat :=
  match fuel with
  | O => 1%nat
  | S fuel' => if n <? 10 then 1%nat else S (count_digits fuel' (n / 10))
  end.

Definition ndigits (n : Z) : nat := count_digits (Z.to_nat (Z.log2 n)) n.

(** [str(n)] for a non-negative integer. *)
Definition nat_digits (n : Z) : string := digits_fixed (ndigits n) n.

(** [str(n)] for an integer. *)
Definition int_str (n : Z) : string :=
  if n <? 0 then "-" ++ nat_digits (- n) else nat_digits n.

Fixpoint zeros (n : nat) : string :=
  match n with
  | O => ""
  | S n' => String "0" (zeros n')
  end.

Fixpoint str_take (n : nat) (s : string) : string :=
  match n, s with
  | S n', String c s' => String c (str_take n' s')
  | _, _ => ""
  end.

Fixpoint str_drop (n : nat) (s : string) : string :=
  match n, s with
  | S n', String _ s' => str_drop n' s'
  | _, _ => s
  end.

(** ** binary64 *)

Definition float := spec_float.

Definition prec : Z := 53.
Definition emax : Z := 1024.

Definition fsub : float -> float -> float := SFsub prec emax.
Definition fabs : float -> float := SFabs.
Definition fltb : float -> float -> bool := SFltb.
Definition fleb : float -> float -> bool := SFleb.
Definition feqb : float -> float -> bool := SFeqb.

Definition is_nan (f : float) : bool :=
  match f with S754_nan => true | _ => false end.

(** A real number: neither NaN nor an infinity. *)
Definition is_finite (f : float) : bool :=
  match f with
  | S754_zero _ | S754_finite _ _ _ => true
  | _ => false
  end.

Definition sign_bit (f : float) : bool :=
  match f with
  | S754_zero s | S754_infinity s | S754_finite s _ _ => s
  | S754_nan => false
  end.

(** The exact value of a finite float; 0 for the others. *)
Definition pow2Q (e : Z) : Q :=
  match e with
  | Z0 => 1%Q
  | Zpos p => inject_Z (Z.pow_pos 2 p)
  | Zneg p => Qmake 1 (Pos.pow 2 p)
  end.

Definition to_Q (f : float) : Q :=
  match f with
  | S754_finite s m e =>
      let v := (inject_Z (Zpos m) * pow2Q e)%Q in
      if s then (- v)%Q else v
  | _ => 0%Q
  end.

(** ** Fixed-point formatting: [format(x, '.<d>f')]

    CPython rounds the exact binary value to [d] decimals, ties to even,
    and keeps the sign of the argument even when the result is zero. *)

(** Nearest integer to [num / den], ties to even ([0 <= num], [0 < den]). *)
Definition div_half_even (num den : Z) : Z :=
  let q := num / den in
  let r := num mod den in
  match 2 * r ?= den with
  | Lt => q
  | Gt => q + 1
  | Eq => if Z.even q then q else q + 1
  end.

(** Nearest integer to [m * 2^e * 10^d], ties to even. *)
Definition scaled_round (d : nat) (m : positive) (e : Z) : Z :=
  let num := Zpos m * 10 ^ Z.of_nat d in
  match e with
  | Zneg p => div_half_even num (Z.pow_pos 2 p)
  | _ => num * 2 ^ e
  end.

(** The text of the non-negative integer [n] read as a multiple of
    [10^-d]: integer part, and a point followed by exactly [d] digits
    when [d] is positive. *)
Definition fixed_digits (d : nat) (n : Z) : string :=
  nat_digits (n / 10 ^ Z.of_nat d) ++
  match d with
  | O => ""
  | _ => "." ++ digits_fixed d n
  end.

Definition sign_str (s : bool) : string := if s then "-" else "".

Definition format_fixed (d : nat) (f : float) : string :=
  match f with
  | S754_nan => "nan"
  | S754_infinity s => sign_str s ++ "inf"
  | S754_zero s => sign_str s ++ fixed_digits d 0
  | S754_finite s m e => sign_str s ++ fixed_digits d (scaled_round d m e)
  end.

(** ** The default text of a float: [str(x)], [repr(x)], [f"{x}"]

    CPython prints the shortest decimal string that reads back as the
    same binary64, the closest to the exact value among the shortest, in
    positional notation when the decimal point falls in [(-4, 16]] and in
    exponent notation otherwise. *)

Definition pow10Q (k : Z) : Q :=
  match k with
  | Z0 => 1%Q
  | Zpos p => inject_Z (Z.pow_pos 10 p)
  | Zneg p => Qmake 1 (Pos.pow 10 p)
  end.

Definition Qltb (a b : Q) : bool :=
  match (a ?= b)%Q with Lt => true | _ => false end.

Definition emin : Z := 3 - emax - prec.

(** Half the distance from [m * 2^e] to the next float above and below. *)
Definition half_gap_up (e : Z) : Q := pow2Q (e - 1).

Definition half_gap_down (m : positive) (e : Z) : Q :=
  if Pos.eqb m (Pos.pow 2 52) && (emin <? e)
  then pow2Q (e - 2) else pow2Q (e - 1).

(** Does the decimal [c] read back (round to nearest, ties to even) as
    the positive float [m * 2^e]? *)
Definition reads_back (m : positive) (e : Z) (c : Q) : bool :=
  let v := (inject_Z (Zpos m) * pow2Q e)%Q in
  let lo := (v - half_gap_down m e)%Q in
  let hi := (v + half_gap_up e)%Q in
  if Z.even (Zpos m)
  then Qle_bool lo c && Qle_bool c hi
  else Qltb lo c && Qltb c hi.

(** The [t] with [10^(t-1) <= v < 10^t], searched from a first guess. *)
Fixpoint find_decpt (fuel : nat) (v : Q) (t : Z) : Z :=
  match fuel with
  | O => t
  | S fuel' =>
      if Qltb v (pow10Q (t - 1)) then find_decpt fuel' v (t - 1)
      else if Qle_bool (pow10Q t) v then find_decpt fuel' v (t + 1)
      else t
  end.

Definition decpt_of (m : positive) (e : Z) : Z :=
  let v := (inject_Z (Zpos m) * pow2Q e)%Q in
  find_decpt 400 v (((Zpos (digits2_pos m) + e) * 30103) / 100000).

(** The [p]-digit decimals just below and above [v], and the choice
    between them: the one that reads back, the nearer when both do. *)
Definition candidate (m : positive) (e : Z) (t : Z) (p : Z) : option (Z * Z) :=
  let v := (inject_Z (Zpos m) * pow2Q e)%Q in
  let k := t - p in
  let u := pow10Q k in
  let dlo := Qfloor (v / u) in
  let dhi := dlo + 1 in
  let clo := (inject_Z dlo * u)%Q in
  let chi := (inject_Z dhi * u)%Q in
  match reads_back m e clo, reads_back m e chi with
  | true, true =>
      match ((v - clo) ?= (chi - v))%Q with
      | Lt => Some (dlo, k)
      | Gt => Some (dhi, k)
      | Eq => if Z.even dlo then Some (dlo, k) else Some (dhi, k)
      end
  | true, false => Some (dlo, k)
  | false, true => Some (dhi, k)
  | false, false => None
  end.

(** The exact decimal expansion of [m * 2^e], which always exists. *)
Definition exact_decimal (m : positive) (e : Z) : Z * Z :=
  match e with
  | Zneg p => (Zpos m * Z.pow_pos 5 p, e)
  | _ => (Zpos m * 2 ^ e, 0)
  end.

(** Try 1, 2, ... digits.  Seventeen digits always suffice for a
    binary64, so the exact expansion at the end is never reached; it
    keeps the function total. *)
Fixpoint shortest_from (fuel : nat) (m : positive) (e t p : Z) : Z * Z :=
  match fuel with
  | O => exact_decimal m e
  | S fuel' =>
      match candidate m e t p with
      | Some r => r
      | None => shortest_from fuel' m e t (p + 1)
      end
  end.

Fixpoint strip_zeros (fuel : nat) (d k : Z) : Z * Z :=
  match fuel with
  | O => (d, k)
  | S fuel' =>
      if (d mod 10 =? 0) && negb (d =? 0)
      then strip_zeros fuel' (d / 10) (k + 1) else (d, k)
  end.

(** Digits [d] and exponent [k] of the shortest decimal [d * 10^k]. *)
Definition shortest_digits (m : positive) (e : Z) : Z * Z :=
  let '(d, k) := shortest_from 17 m e (decpt_of m e) 1 in
  strip_zeros 17 d k.

Definition exp_str (x : Z) : string :=
  (if x <? 0 then "-" else "+") ++
  (if Z.abs x <? 10 then "0" else "") ++ nat_digits (Z.abs x).

Definition repr_digits (d k : Z) : string :=
  let ds := nat_digits d in
  let n := Z.of_nat (String.length ds) in
  let decpt := k + n in
  if (-4 <? decpt) && (decpt <=? 16) then
    if decpt <=? 0 then "0." ++ zeros (Z.to_nat (- decpt)) ++ ds
    else if n <=? decpt then ds ++ zeros (Z.to_nat (decpt - n)) ++ ".0"
    else str_take (Z.to_nat decpt) ds ++ "." ++ str_drop (Z.to_nat decpt) ds
  else
    str_take 1 ds ++
    (if 1 <? n then "." ++ str_drop 1 ds else "") ++
    "e" ++ exp_str (decpt - 1).

Definition float_str (f : float) : string :=
  match f with
  | S754_nan => "nan"
  | S754_infinity s => sign_str s ++ "inf"
  | S754_zero s => sign_str s ++ "0.0"
  | S754_finite s m e =>
      let '(d, k) := shortest_digits m e in
      sign_str s ++ repr_digits d k
  end.

(** ** Strings *)

(** [sep.join(l)] *)
Fixpoint join (sep : string) (l : list string) : string :=
  match l with
  | [] => ""
  | [a] => a
  | a :: t => a ++ sep ++ join sep t
  end.

(** [s.replace(old, new)] for a non-empty [old]: occurrences are replaced
    from the left and do not overlap.  [skip] counts the characters of
    an occurrence that remain to be dropped. *)
Fixpoint replace_from (skip : nat) (old new s : string) : string :=
  match s with
  | EmptyString => ""
  | String c s' =>
      match skip with
      | S k => replace_from k old new s'
      | O =>
          if String.prefix old s
          then new ++ replace_from (String.length old - 1) old new s'
          else String c (replace_from 0 old new s')
      end
  end.

Definition str_replace (old new s : string) : string :=
  replace_from 0 old new s.

Fixpoint str_contains (c : ascii) (s : string) : bool :=
  match s with
  | EmptyString => false
  | String a s' => Ascii.eqb a c || str_contains c s'
  end.

Definition lf : string := String (ascii_of_nat 10) "".

(** [repr(s)] of a string: single quotes unless the text holds a single
    quote and no double quote; backslash, the chosen quote, newline,
    carriage return and tab are escaped.  Other characters are kept. *)
Fixpoint escape_chars (q : ascii) (s : string) : string :=
  match s with
  | EmptyString => ""
  | String c s' =>
      (if Ascii.eqb c "\" then "\\"
       else if Ascii.eqb c q then String "\" (String q "")
       else if Ascii.eqb c (ascii_of_nat 10) then "\n"
       else if Ascii.eqb c (ascii_of_nat 13) then "\r"
       else if Ascii.eqb c (ascii_of_nat 9) then "\t"
       else String c "") ++ escape_chars q s'
  end.

Definition squote : ascii := ascii_of_nat 39.
Definition dquote : ascii := ascii_of_nat 34.

Definition str_repr (s : string) : string :=
  let q := if str_contains squote s && negb (str_contains dquote s)
           then dquote else squote in
  String q (escape_chars q s) ++ String q "".

(** [repr(l)] of a list of strings. *)
Definition list_repr (l : list string) : string :=
  "[" ++ join ", " (map str_repr l) ++ "]".

(** ** Exceptions *)

Record exn := { exn_class : string; exn_msg : string }.

(** [str(e)] *)
Definition exn_str (e : exn) : string := exn_msg e.

Definition KeyError (key : string) : exn :=
  {| exn_class := "KeyError"; exn_msg := str_repr key |}.

Definition ValueError (msg : string) : exn :=
  {| exn_class := "ValueError"; exn_msg := msg |}.

Inductive result (A : Type) : Type :=
| Ok (a : A)
| Raise (e : exn).

Arguments Ok {A} a.
Arguments Raise {A} e.

Definition bind {A B : Type} (m : result A) (k : A -> result B) : result B :=
  match m with
  | Ok a => k a
  | Raise e => Raise e
  end.

Fixpoint mapM {A B : Type} (f : A -> result B) (l : list A) : result (list B) :=
  match l with
  | [] => Ok []
  | a :: t =>
      bind (f a) (fun b => bind (mapM f t) (fun bs => Ok (b :: bs)))
  end.

(** ** The built-ins [max] and [min] on a list

    [max] replaces its candidate when a later item is greater, [min]
    when a later item is smaller; both raise on an empty list. *)

Definition py_max (l : list float) : result float :=
  match l with
  | [] => Raise (ValueError "max() arg is an empty sequence")
  | a :: t => Ok (fold_left (fun acc y => if fltb acc y then y else acc) t a)
  end.

Definition py_min (l : list float) : result float :=
  match l with
  | [] => Raise (ValueError "min() arg is an empty sequence")
  | a :: t => Ok (fold_left (fun acc y => if fltb y acc then y else acc) t a)
  end.

End Py.

Notation "x <- m ;; k" := (Py.bind m (fun x => k))
  (at level 61, m at next level, right associativity).

(* ===================================================================== *)
(** * pandas: the part of [DataFrame] and [Series] the program uses *)
(* ===================================================================== *)

Module Pandas.
Import Py.

(** A [float64] column. *)
Definition Series := list float.

(** A table as [pd.read_excel] returns it: the column names of the
    header row and the data rows, under the default index 0, 1, 2, ...
    A cell a row does not have is NaN, as pandas fills it. *)
Record DataFrame := {
  columns : list string;
  rows : list (list float)
}.

Definition nan : float := S754_nan.
Definition neg_inf : float := S754_infinity true.
Definition pos_inf : float := S754_infinity false.

(** [len(df)] *)
Definition len (df : DataFrame) : nat := List.length (rows df).

Fixpoint index_of (name : string) (cols : list string) : option nat :=
  match cols with
  | [] => None
  | c :: t =>
      if String.eqb c name then Some O
      else match index_of name t with
           | Some j => Some (S j)
           | None => None
           end
  end.

Definition cell (j : nat) (r : list float) : float := nth j r nan.

(** [df[name]] *)
Definition getitem (df : DataFrame) (name : string) : result Series :=
  match index_of name (columns df) with
  | Some j => Ok (map (cell j) (rows df))
  | None => Raise (KeyError name)
  end.

(** [row[name]] for a row that [iterrows] yields. *)
Definition row_getitem (cols : list string) (r : list float) (name : string)
  : result float :=
  match index_of name cols with
  | Some j => Ok (cell j r)
  | None => Raise (KeyError name)
  end.

(** [l[::step]]: the items at positions 0, step, 2*step, ...  [skip] is
    the number of items to pass over before the next one is kept. *)
Fixpoint stride_from {A : Type} (step skip : nat) (l : list A) : list A :=
  match l with
  | [] => []
  | a :: t =>
      match skip with
      | O => a :: stride_from step (step - 1) t
      | S k => stride_from step k t
      end
  end.

(** [df.iloc[::step]] *)
Definition iloc_step {A : Type} (step : nat) (l : list A) : list A :=
  stride_from step 0 l.

(** [s.abs()] *)
Definition abs (s : Series) : Series := map fabs s.

Definition fill_nan (v x : float) : float := if is_nan x then v else x.

(** numpy's reductions over a non-empty array, from the left; of equal
    items the first is kept. *)
Definition np_max (a : float) (t : list float) : float :=
  fold_left (fun acc y => if fltb acc y then y else acc) t a.

Definition np_min (a : float) (t : list float) : float :=
  fold_left (fun acc y => if fltb y acc then y else acc) t a.

(** [s.max()], which skips NaN: NaN for an empty or all-NaN column,
    else the greatest item after NaN has been replaced by -inf. *)
Definition max (s : Series) : float :=
  if forallb is_nan s then nan
  else match map (fill_nan neg_inf) s with
       | a :: t => np_max a t
       | [] => nan
       end.

(** [s.min()] *)
Definition min (s : Series) : float :=
  if forallb is_nan s then nan
  else match map (fill_nan pos_inf) s with
       | a :: t => np_min a t
       | [] => nan
       end.

(** Position of the first greatest item: [best] at position [besti] is
    the candidate, [i] the position of the head of [l]. *)
Fixpoint argmax_from (best : float) (besti i : nat) (l : list float) : nat :=
  match l with
  | [] => besti
  | y :: t =>
      if fltb best y then argmax_from y i (S i) t
      else argmax_from best besti (S i) t
  end.

(** [s.idxmax()] under the default index: the label of the first
    greatest item, NaN skipped.  An empty column raises; so does a
    column of NaN only. *)
Definition idxmax (s : Series) : result nat :=
  match s with
  | [] => Raise (ValueError "attempt to get argmax of an empty sequence")
  | _ =>
      if forallb is_nan s
      then Raise (ValueError "Encountered all NA values")
      else match map (fill_nan neg_inf) s with
           | a :: t => Ok (argmax_from a 0 1 t)
           | [] => Ok O
           end
  end.

(** [df.loc[label, name]] *)
Definition loc (df : DataFrame) (label : nat) (name : string) : result float :=
  col <- getitem df name ;;
  match nth_error col label with
  | Some v => Ok v
  | None => Raise (KeyError (int_str (Z.of_nat label)))
  end.

End Pandas.

(* ===================================================================== *)
(** * PyLaTeX: the document tree *)
(* ===================================================================== *)

Module Latex.

(** What [append] puts into a container.  [LSection], [LSubsection] and
    [LFigure] are PyLaTeX's [Section], [Subsection] and [Figure]. *)
Inductive item : Type :=
| NoEscape (s : string)
| Text (s : string)
| bold (s : string)
| Image (filename options : string)
| Caption (s : string)
| LSection (title : string) (body : list item)
| LSubsection (title : string) (body : list item)
| LFigure (position : string) (body : list item).

Record Document := {
  geometry_options : list (string * string);
  packages : list string;
  preamble : list item;
  data : list item
}.

(** [fig.add_image(filename, width=w)]: the placement command, then the
    graphic. *)
Definition add_image (filename width : string) : list item :=
  [NoEscape "\centering"; Image filename ("width=" ++ width)].

Fixpoint is_figure (i : item) : bool :=
  match i with
  | LFigure _ _ | Image _ _ => true
  | LSection _ body | LSubsection _ body => existsb is_figure body
  | _ => false
  end.

(** Does the document hold an image block, at any depth? *)
Definition has_image (d : Document) : bool := existsb is_figure (data d).

End Latex.

(* ===================================================================== *)
(** * The program: [main.py] *)
(* ===================================================================== *)

Import Py Pandas Latex.

(** ** The world outside: files and the LaTeX toolchain *)

(** What a call leaves behind: a line on standard output, a directory,
    the rendered PDF. *)
Inductive event : Type :=
| Printed (line : string)
| MadeDirs (path : string)
| PdfWritten (path : string) (doc : Document).

(** The answers of the environment: what [pd.read_excel] returns or
    raises for a path, whether a path exists, whether [os.makedirs]
    succeeds, and whether the LaTeX toolchain renders a document. *)
Record World := {
  read_excel : string -> result DataFrame;
  path_exists : string -> bool;
  makedirs : string -> result unit;
  run_latex : string -> Document -> result unit
}.

(** A computation that leaves events behind and returns or raises. *)
Definition io (A : Type) : Type := (list event * result A)%type.

Definition io_ret {A : Type} (a : A) : io A := ([], Ok a).

Definition io_bind {A B : Type} (m : io A) (k : A -> io B) : io B :=
  match m with
  | (ev, Ok a) => let '(ev', r) := k a in ((ev ++ ev')%list, r)
  | (ev, Raise e) => (ev, Raise e)
  end.

Definition lift {A : Type} (r : result A) : io A := ([], r).

(** [try: body  except Exception as e: handler] *)
Definition try_except {A : Type} (body : io A) (handler : exn -> io A) : io A :=
  match body with
  | (ev, Ok a) => (ev, Ok a)
  | (ev, Raise e) => let '(ev', r) := handler e in ((ev ++ ev')%list, r)
  end.

Notation "x <~ m ;; k" := (io_bind m (fun x => k))
  (at level 61, m at next level, right associativity).

Definition print (s : string) : io unit := ([Printed s], Ok tt).

(** [os.makedirs(path, exist_ok=True)] *)
Definition os_makedirs (w : World) (path : string) : io unit :=
  match makedirs w path with
  | Ok _ => ([MadeDirs path], Ok tt)
  | Raise e => ([], Raise e)
  end.

(** [doc.generate_pdf(filepath, clean_tex=False)] *)
Definition generate_pdf (w : World) (doc : Document) (filepath : string) : io unit :=
  match run_latex w filepath doc with
  | Ok _ => ([PdfWritten (filepath ++ ".pdf") doc], Ok tt)
  | Raise e => ([], Raise e)
  end.

(** ** [read_beam_data] *)

Definition read_beam_data (w : World) (excel_path : string) : io (option DataFrame) :=
  try_except
    (df <~ lift (read_excel w excel_path) ;;
     _ <~ print ("Successfully read " ++ int_str (Z.of_nat (len df))
                 ++ " data points from Excel file") ;;
     _ <~ print ("Columns: " ++ list_repr (columns df)) ;;
     io_ret (Some df))
    (fun e =>
     _ <~ print ("Error reading Excel file: " ++ exn_str e) ;;
     io_ret None).

(** ** [create_tikz_sfd] *)

Definition sfd_head : string := "
\begin{center}
\begin{tikzpicture}
    \begin{axis}[
        width=12cm,
        height=7cm,
        xlabel={Distance along beam (m)},
        ylabel={Shear Force (kN)},
        grid=major,
        legend pos=north east,
        axis lines=middle,
    ]
    \addplot[blue, thick, smooth] coordinates {
        ".

Definition sfd_tail : string := "
    };
    \addlegendentry{Shear Force}
    \end{axis}
\end{tikzpicture}
\end{center}
".

Definition create_tikz_sfd (x_data y_data : list float) : string :=
  let coordinates :=
    join " " (map (fun '(x, y) => "(" ++ float_str x ++ "," ++ float_str y ++ ")")
                  (combine x_data y_data)) in
  sfd_head ++ coordinates ++ sfd_tail.

(** ** [create_tikz_bmd] *)

Definition bmd_head : string := "
\begin{center}
\begin{tikzpicture}
    \begin{axis}[
        width=12cm,
        height=7cm,
        xlabel={Distance along beam (m)},
        ylabel={Bending Moment (kN·m)},
        grid=major,
        legend pos=north east,
        axis lines=middle,
    ]
    \addplot[red, thick, smooth] coordinates {
        ".

Definition bmd_tail : string := "
    };
    \addlegendentry{Bending Moment}
    \end{axis}
\end{tikzpicture}
\end{center}
".

Definition create_tikz_bmd (x_data y_data : list float) : string :=
  let coordinates :=
    join " " (map (fun '(x, y) => "(" ++ float_str x ++ "," ++ format_fixed 2 y ++ ")")
                  (combine x_data y_data)) in
  bmd_head ++ coordinates ++ bmd_tail.

(** ** [create_data_table] *)

Definition table_head : string := "
\begin{center}
\begin{tabular}{|c|c|c|}
\hline
\textbf{Position (m)} & \textbf{Shear Force (kN)} & \textbf{Bending Moment (kN·m)} \\
\hline
".

Definition table_tail : string := "
\end{tabular}
\end{center}
".

(** The text one row adds to the table. *)
Definition table_line (cols : list string) (row : list float) : result string :=
  x <- row_getitem cols row "x" ;;
  v <- row_getitem cols row "Shear force" ;;
  m <- row_getitem cols row "Bending Moment" ;;
  Ok (format_fixed 1 x ++ " & " ++ format_fixed 2 v ++ " & " ++ format_fixed 2 m
      ++ " \\" ++ lf ++ "\hline" ++ lf).

(** The loop over the selected rows, each adding to [table_code]. *)
Fixpoint table_loop (cols : list string) (selected : list (list float))
  (table_code : string) : result string :=
  match selected with
  | [] => Ok table_code
  | row :: rest =>
      line <- table_line cols row ;;
      table_loop cols rest (table_code ++ line)
  end.

Definition table_step (beam_df : DataFrame) : nat :=
  if (len beam_df <=? 15)%nat then 1%nat else 2%nat.

Definition create_data_table (beam_df : DataFrame) : result string :=
  let table_code := table_head in
  let step := table_step beam_df in
  table_code <- table_loop (columns beam_df) (iloc_step step (rows beam_df)) table_code ;;
  Ok (table_code ++ table_tail).

(** ** [generate_report] *)

(** The figures of the report, as [generate_report] computes them. *)

(** [beam_df['x'].max() - beam_df['x'].min()] *)
Definition beam_length (beam_df : DataFrame) : result float :=
  x <- getitem beam_df "x" ;;
  Ok (fsub (max x) (min x)).

(** [beam_df['Shear force'].abs().max()] *)
Definition max_shear (beam_df : DataFrame) : result float :=
  s <- getitem beam_df "Shear force" ;;
  Ok (max (abs s)).

(** [beam_df['Bending Moment'].max()] *)
Definition max_moment (beam_df : DataFrame) : result float :=
  m <- getitem beam_df "Bending Moment" ;;
  Ok (max m).

(** [beam_df.loc[beam_df['Bending Moment'].idxmax(), 'x']] *)
Definition max_moment_location (beam_df : DataFrame) : result float :=
  m <- getitem beam_df "Bending Moment" ;;
  label <- idxmax m ;;
  loc beam_df label "x".

Definition par : item := NoEscape "\par".
Definition vspace (h : string) : item := NoEscape ("\par\vspace{" ++ h ++ "}").

(** The section [Introduction]. *)
Definition introduction (w : World) (beam_df : DataFrame) (beam_image_path : string)
  : result item :=
  let before :=
    [ Text "This report presents the structural analysis of a simply supported beam. ";
      Text "The beam consists of a pinned support on the left end and a roller support on the right end, ";
      Text "allowing for horizontal movement while providing vertical support.";
      vspace "0.5cm";
      Text "The analysis includes the complete shear force distribution and bending moment distribution ";
      Text "along the length of the beam.";
      vspace "0.5cm";
      bold "Data Source: ";
      Text "Analysis data has been imported from the Excel file: Force.xlsx";
      vspace "0.5cm" ] in
  let figure :=
    if path_exists w beam_image_path
    then [ LFigure "h!"
             (add_image beam_image_path "400px"
              ++ [ Caption "Simply Supported Beam Configuration" ])%list ]
    else [] in
  beam_length <- beam_length beam_df ;;
  Ok (LSection "Introduction"
        (before ++ figure
         ++ [ vspace "0.5cm";
              bold "Beam Properties:";
              par;
              Text ("Total Beam Length: " ++ format_fixed 1 beam_length ++ " m");
              par;
              Text ("Number of Analysis Points: " ++ int_str (Z.of_nat (len beam_df))) ])%list).

(** The section [Analysis Data], and the position of the greatest moment,
    which the later sections use as well. *)
Definition analysis_data (beam_df : DataFrame) : result (item * float) :=
  table <- create_data_table beam_df ;;
  max_shear <- max_shear beam_df ;;
  max_moment <- max_moment beam_df ;;
  max_moment_location <- max_moment_location beam_df ;;
  Ok (LSection "Analysis Data"
        [ Text "The following table shows the calculated shear force and bending moment values ";
          Text "at various positions along the beam:";
          vspace "0.5cm";
          NoEscape table;
          vspace "0.5cm";
          bold "Key Analysis Results:";
          par;
          Text ("Maximum Shear Force: " ++ format_fixed 2 max_shear ++ " kN");
          par;
          Text ("Maximum Bending Moment: " ++ format_fixed 2 max_moment ++ " kN·m");
          par;
          Text ("Location of Maximum Moment: " ++ format_fixed 2 max_moment_location
                ++ " m from left support") ],
      max_moment_location).

(** The section [Structural Analysis Diagrams]. *)
Definition diagrams (beam_df : DataFrame) (max_moment_location : float) : result item :=
  x_data <- getitem beam_df "x" ;;
  shear_data <- getitem beam_df "Shear force" ;;
  let sfd := create_tikz_sfd x_data shear_data in
  lo <- py_min shear_data ;;
  hi <- py_max shear_data ;;
  moment_data <- getitem beam_df "Bending Moment" ;;
  let bmd := create_tikz_bmd x_data moment_data in
  top <- py_max moment_data ;;
  Ok (LSection "Structural Analysis Diagrams"
        [ LSubsection "Shear Force Diagram (SFD)"
            [ Text "The shear force diagram shows the variation of shear force along the length of the beam. ";
              Text "Shear force represents the internal force acting perpendicular to the beam axis.";
              vspace "0.5cm";
              NoEscape sfd;
              vspace "0.3cm";
              Text ("The shear force varies from " ++ format_fixed 2 lo ++ " kN to "
                    ++ format_fixed 2 hi ++ " kN along the beam.") ];
          NoEscape "\vspace{1.5cm}";
          LSubsection "Bending Moment Diagram (BMD)"
            [ Text "The bending moment diagram shows the variation of bending moment along the length of the beam. ";
              Text "Bending moment represents the internal moment that causes the beam to bend.";
              vspace "0.5cm";
              NoEscape bmd;
              vspace "0.3cm";
              Text ("The maximum bending moment is " ++ format_fixed 2 top ++ " kN·m, ");
              Text ("occurring at " ++ format_fixed 2 max_moment_location
                    ++ " m from the left support.") ] ]).

(** The section [Conclusion]. *)
Definition conclusion : item :=
  LSection "Conclusion"
    [ Text "The structural analysis of the simply supported beam has been completed. ";
      Text "The shear force and bending moment diagrams provide essential information for:";
      vspace "0.3cm";
      NoEscape "\begin{itemize}";
      NoEscape "\item Determining critical sections for design";
      NoEscape "\item Calculating required beam dimensions";
      NoEscape "\item Selecting appropriate materials";
      NoEscape "\item Ensuring structural safety and stability";
      NoEscape "\end{itemize}";
      vspace "0.3cm";
      Text "These results form the foundation for detailed structural design and verification." ].

(** The document as it stands when [generate_pdf] is called; [packages]
    lists what the program adds to PyLaTeX's own. *)
Definition report_document (w : World) (beam_df : DataFrame) (beam_image_path : string)
  : result Document :=
  intro <- introduction w beam_df beam_image_path ;;
  r <- analysis_data beam_df ;;
  let '(analysis, max_moment_location) := r in
  charts <- diagrams beam_df max_moment_location ;;
  Ok {| geometry_options := [("margin", "1in")];
        packages := ["graphicx"; "pgfplots"; "tikz"];
        preamble :=
          [ NoEscape "\pgfplotsset{compat=1.18}";
            NoEscape "\title{Beam Analysis Report \\ Simply Supported Beam}";
            NoEscape "\author{Generated using PyLaTeX}";
            NoEscape "\date{\today}" ];
        data :=
          [ NoEscape "\maketitle";
            NoEscape "\tableofcontents";
            NoEscape "\newpage";
            intro;
            NoEscape "\newpage";
            analysis;
            NoEscape "\newpage";
            charts;
            NoEscape "\newpage";
            conclusion ] |}.

Definition generate_report (w : World) (beam_df : DataFrame)
  (beam_image_path output_path : string) : io unit :=
  doc <~ lift (report_document w beam_df beam_image_path) ;;
  try_except
    (_ <~ generate_pdf w doc (str_replace ".pdf" "" output_path) ;;
     print (lf ++ "Report successfully generated: " ++ output_path))
    (fun e =>
     _ <~ print (lf ++ "Error generating PDF: " ++ exn_str e) ;;
     print "Make sure you have LaTeX installed (MiKTeX, TeX Live, or MacTeX)").

(** ** [main] *)

Definition excel_path : string := "data/Force.xlsx".
Definition beam_image_path : string := "images/Beam.png".
Definition output_path : string := "output/report.pdf".

Definition main (w : World) : io unit :=
  _ <~ os_makedirs w "output" ;;
  _ <~ print "Reading beam analysis data from Excel..." ;;
  beam_df <~ read_beam_data w excel_path ;;
  match beam_df with
  | Some beam_df =>
      _ <~ print (lf ++ "Generating report...") ;;
      _ <~ generate_report w beam_df beam_image_path output_path ;;
      _ <~ print (lf ++ "✓ Report generation complete!") ;;
      print ("✓ Output saved to: " ++ output_path)
  | None =>
      print (lf ++ "✗ Failed to read beam data. Report generation aborted.")
  end.

(* ===================================================================== *)
(** * The notions the properties are stated with *)
(* ===================================================================== *)

Module Spec.
Import Py Pandas Latex.

(** A key whose lexicographic order is the order of the floats that are
    not NaN. *)
Definition rank (f : float) : Z * Z * Z :=
  match f with
  | S754_nan => (0, 0, 0)
  | S754_zero _ => (0, 0, 0)
  | S754_infinity true => (-2, 0, 0)
  | S754_infinity false => (2, 0, 0)
  | S754_finite false m e => (1, e, Zpos m)
  | S754_finite true m e => (-1, - e, Zneg m)
  end.

Definition lex_lt (a b : Z * Z * Z) : Prop :=
  let '(a1, a2, a3) := a in
  let '(b1, b2, b3) := b in
  a1 < b1 \/ (a1 = b1 /\ (a2 < b2 \/ (a2 = b2 /\ a3 < b3))).

Definition number (f : float) : Prop := is_nan f = false.

Definition numbers (s : Series) : Prop := Forall number s.

(** [hi] is a greatest item of [s]. *)
Definition greatest (hi : float) (s : Series) : Prop :=
  In hi s /\ forall v, In v s -> fleb v hi = true.

(** [lo] is a least item of [s]. *)
Definition least (lo : float) (s : Series) : Prop :=
  In lo s /\ forall v, In v s -> fleb lo v = true.

(** [k] is the position of the first greatest item of [s]. *)
Definition first_greatest (k : nat) (s : Series) : Prop :=
  exists b, nth_error s k = Some b
    /\ (forall v, In v s -> fleb v b = true)
    /\ (forall j v, (j < k)%nat -> nth_error s j = Some v -> fltb v b = true).

(** A number text [s] shows the float [f] rounded to [d] decimals: the
    sign, then the digits of a nearest integer [n] to [|f| * 10^d] with
    the point before the last [d] of them. *)
Definition rounded_to (d : nat) (f : float) (s : string) : Prop :=
  exists n : Z,
    0 <= n
    /\ (Qabs (Qabs (to_Q f) * inject_Z (10 ^ Z.of_nat d) - inject_Z n) <= 1 # 2)%Q
    /\ s = sign_str (sign_bit f) ++ nat_digits (n / 10 ^ Z.of_nat d)
           ++ "." ++ digits_fixed d n
    /\ String.length (digits_fixed d n) = d.

(** A number text [s] shows the float [f] unrounded: its digits denote a
    decimal that reads back as [f] itself. *)
Definition raw_text (f : float) (s : string) : Prop :=
  match f with
  | S754_finite sg m e =>
      exists d k, s = sign_str sg ++ repr_digits d k
                  /\ reads_back m e (inject_Z d * pow10Q k) = true
  | S754_zero sg => s = sign_str sg ++ "0.0"
  | S754_infinity sg => s = sign_str sg ++ "inf"
  | S754_nan => s = "nan"
  end.

(** The frame has the three columns the report reads. *)
Definition has_columns (df : DataFrame) : Prop :=
  exists jx jv jm,
    index_of "x" (columns df) = Some jx
    /\ index_of "Shear force" (columns df) = Some jv
    /\ index_of "Bending Moment" (columns df) = Some jm.

(** An item occurs in another: it is that item or occurs in its body. *)
Inductive occurs (x : item) : item -> Prop :=
| occurs_here : occurs x x
| occurs_section title body i :
    In i body -> occurs x i -> occurs x (LSection title body)
| occurs_subsection title body i :
    In i body -> occurs x i -> occurs x (LSubsection title body)
| occurs_figure position body i :
    In i body -> occurs x i -> occurs x (LFigure position body).

(** The document holds the item, at any depth. *)
Definition contains (x : item) (d : Document) : Prop :=
  exists i, In i (data d) /\ occurs x i.

(** The binary64 nearest to the decimal 12.3456. *)
Definition twelve_3456 : float := S754_finite false 6949954944958149 (-49).

(** The first of the three columns the report reads that the frame
    lacks, if any. *)
Definition first_missing (cols : list string) : option string :=
  find (fun name => match index_of name cols with
                    | None => true
                    | Some _ => false
                    end)
       ["x"; "Shear force"; "Bending Moment"].

(** The event records a written PDF. *)
Definition is_pdf (e : event) : bool :=
  match e with
  | PdfWritten _ _ => true
  | _ => false
  end.

(** The position of the row the table ends with, for a dataset of [n]
    rows: the last row, or the row before it when more than 15 rows are
    taken with stride 2 and their number is even. *)
Definition last_shown (n : nat) : nat :=
  if (n <=? 15)%nat || Nat.odd n then (n - 1)%nat else (n - 2)%nat.

End Spec.

(** ** Sample tables and worlds *)

Import Spec.

(** [float(z)] *)
Definition real (z : Z) : float := binary_normalize prec emax z 0 false.

Definition beam_columns : list string := ["x"; "Shear force"; "Bending Moment"].

(** The dataset [(0,0,0), (5,10,25), (10,-10,0)]. *)
Definition df_three : DataFrame :=
  {| columns := beam_columns;
     rows := [ [real 0; real 0; real 0];
               [real 5; real 10; real 25];
               [real 10; real (-10); real 0] ] |}.

(** A sheet with the header row only. *)
Definition df_empty : DataFrame := {| columns := beam_columns; rows := [] |}.

(** A sheet without the bending-moment column. *)
Definition df_no_moment : DataFrame :=
  {| columns := ["x"; "Shear force"];
     rows := [ [real 0; real 0]; [real 5; real 10] ] |}.

(** [n] records at positions 0, 1, ..., n-1. *)
Definition df_ramp (n : nat) : DataFrame :=
  {| columns := beam_columns;
     rows := map (fun k => let z := Z.of_nat k in [real z; real (8 - z); real (z * (16 - z))])
                 (seq 0 n) |}.

(** Two records tie for the greatest moment. *)
Definition df_tie : DataFrame :=
  {| columns := beam_columns;
     rows := [ [real 0; real 4; real 0];
               [real 2; real 1; real 25];
               [real 4; real (-1); real 25];
               [real 6; real (-4); real 0] ] |}.

Definition no_compiler : exn :=
  {| exn_class := "CompilerError"; exn_msg := "No LaTex compiler was found" |}.

Definition file_not_found : exn :=
  {| exn_class := "FileNotFoundError";
     exn_msg := "[Errno 2] No such file or directory: 'data/Force.xlsx'" |}.

(** A world in which reading the sheet gives [sheet], no image exists,
    and LaTeX works or not. *)
Definition world_of (sheet : result DataFrame) (latex : bool) : World :=
  {| read_excel := fun _ => sheet;
     path_exists := fun _ => false;
     makedirs := fun _ => Ok tt;
     run_latex := fun _ _ => if latex then Ok tt else Raise no_compiler |}.

Definition permission_denied : exn :=
  {| exn_class := "PermissionError";
     exn_msg := "[Errno 13] Permission denied: 'output'" |}.

(** A world in which the output directory cannot be created. *)
Definition world_locked : World :=
  {| read_excel := fun _ => Ok df_three;
     path_exists := fun _ => false;
     makedirs := fun _ => Raise permission_denied;
     run_latex := fun _ _ => Ok tt |}.

(** A world in which the sheet is [df_three], the image exists and LaTeX
    works. *)
Definition world_pictured : World :=
  {| read_excel := fun _ => Ok df_three;
     path_exists := fun _ => true;
     makedirs := fun _ => Ok tt;
     run_latex := fun _ _ => Ok tt |}.

(** A sheet with a blank shear cell and a blank moment cell. *)
Definition df_blank_shear : DataFrame :=
  {| columns := beam_columns;
     rows := [ [real 0; real (-3); real 0];
               [real 1; nan; real 4];
               [real 2; real 2; nan] ] |}.

(** A sheet whose moment cells are all blank. *)
Definition df_blank_moment : DataFrame :=
  {| columns := beam_columns;
     rows := [ [real 0; real 1; nan]; [real 1; real 2; nan] ] |}.

(* ===================================================================== *)
(** * The order of binary64 values *)
(* ===================================================================== *)

Module FloatOrder.
Import Py Spec.

Ltac cmp_cases :=
  repeat match goal with
  | |- context [Z.compare ?a ?b] => destruct (Z.compare_spec a b)
  | |- context [Pos.compare_cont Eq ?a ?b] =>
      change (Pos.compare_cont Eq a b) with (Pos.compare a b);
      destruct (Pos.compare_spec a b)
  end.

Lemma fltb_rank (a b : float) :
  number a -> number b -> (fltb a b = true <-> lex_lt (rank a) (rank b)).
Proof.
  unfold number, fltb, SFltb, SFcompare.
  destruct a as [sa|sa| |sa ma ea], b as [sb|sb| |sb mb eb];
    try discriminate; intros _ _;
    try destruct sa; try destruct sb; simpl; cmp_cases; simpl;
    split; intro Hg; try discriminate; try reflexivity; try lia.
Qed.

Lemma fleb_rank (a b : float) :
  number a -> number b -> (fleb a b = true <-> ~ lex_lt (rank b) (rank a)).
Proof.
  unfold number, fleb, SFleb, SFcompare.
  destruct a as [sa|sa| |sa ma ea], b as [sb|sb| |sb mb eb];
    try discriminate; intros _ _;
    try destruct sa; try destruct sb; simpl; cmp_cases; simpl;
    split; intro Hg; try discriminate; try reflexivity; try lia;
    try (exfalso; apply Hg; lia).
Qed.

Lemma feqb_rank (a b : float) :
  number a -> number b -> (feqb a b = true <-> rank a = rank b).
Proof.
  unfold number, feqb, SFeqb, SFcompare.
  destruct a as [sa|sa| |sa ma ea], b as [sb|sb| |sb mb eb];
    try discriminate; intros _ _;
    try destruct sa; try destruct sb; simpl; cmp_cases; simpl;
    split; intro Hg; try discriminate; try reflexivity;
    try (injection Hg; intros; lia); try (subst; reflexivity);
    try (f_equal; f_equal; lia).
Qed.

Ltac by_rank :=
  repeat match goal with
  | H : fltb ?a ?b = true |- _ => apply fltb_rank in H; [|assumption|assumption]
  | H : fleb ?a ?b = true |- _ => apply fleb_rank in H; [|assumption|assumption]
  | H : fltb ?a ?b = false |- _ =>
      apply not_true_iff_false in H;
      rewrite fltb_rank in H by assumption
  | H : fleb ?a ?b = false |- _ =>
      apply not_true_iff_false in H;
      rewrite fleb_rank in H by assumption
  | |- fltb ?a ?b = true => apply fltb_rank; [assumption|assumption|]
  | |- fleb ?a ?b = true => apply fleb_rank; [assumption|assumption|]
  | |- fltb ?a ?b = false =>
      apply not_true_iff_false; rewrite fltb_rank by assumption
  | |- fleb ?a ?b = false =>
      apply not_true_iff_false; rewrite fleb_rank by assumption
  end;
  repeat match goal with
  | |- context [rank ?a] =>
      let x := fresh "x" in let y := fresh "y" in let z := fresh "z" in
      destruct (rank a) as [[x y] z]
  | H : context [rank ?a] |- _ =>
      let x := fresh "x" in let y := fresh "y" in let z := fresh "z" in
      destruct (rank a) as [[x y] z]
  end;
  unfold lex_lt in *; lia.

Lemma fleb_refl a : number a -> fleb a a = true.
Proof. intros; by_rank. Qed.

Lemma fleb_trans a b c :
  number a -> number b -> number c ->
  fleb a b = true -> fleb b c = true -> fleb a c = true.
Proof. intros; by_rank. Qed.

Lemma fltb_false_fleb a b :
  number a -> number b -> fltb a b = false -> fleb b a = true.
Proof. intros; by_rank. Qed.

Lemma fltb_fleb a b :
  number a -> number b -> fltb a b = true -> fleb a b = true.
Proof. intros; by_rank. Qed.

Lemma fltb_not_fleb a b :
  number a -> number b -> fltb a b = true -> fleb b a = false.
Proof. intros; by_rank. Qed.

Lemma fleb_fltb_trans a b c :
  number a -> number b -> number c ->
  fleb a b = true -> fltb b c = true -> fltb a c = true.
Proof. intros; by_rank. Qed.

Lemma fleb_neq_fltb a b :
  number a -> number b -> fleb a b = true -> feqb a b = false -> fltb a b = true.
Proof.
  intros Na Nb Hle Hne.
  assert (Hr : rank a <> rank b).
  { intro E. apply feqb_rank in E; auto. congruence. }
  apply fltb_rank; auto. apply fleb_rank in Hle; auto.
  destruct (rank a) as [[a1 a2] a3], (rank b) as [[b1 b2] b3]. unfold lex_lt in *.
  destruct (Z.eq_dec a1 b1), (Z.eq_dec a2 b2), (Z.eq_dec a3 b3); subst; try lia.
  congruence.
Qed.

Lemma fabs_number a : number a -> number (fabs a).
Proof. destruct a; simpl; auto. Qed.

Lemma fabs_nonneg a : number a -> fleb (S754_zero false) (fabs a) = true.
Proof. destruct a as [s|s| |s m e]; try destruct s; intro H; try reflexivity; discriminate. Qed.

End FloatOrder.

(* ===================================================================== *)
(** * Facts about the pandas operations *)
(* ===================================================================== *)

Module PandasFacts.
Import Py Pandas Spec FloatOrder.
Local Open Scope list_scope.

Lemma numbers_in s v : numbers s -> In v s -> number v.
Proof. unfold numbers; rewrite Forall_forall; auto. Qed.

Lemma fill_nan_numbers v s : numbers s -> map (fill_nan v) s = s.
Proof.
  induction 1 as [|a t Ha _ IH]; simpl; [reflexivity|].
  unfold fill_nan at 1. unfold number in Ha. rewrite Ha, IH. reflexivity.
Qed.

Lemma forallb_is_nan_numbers a t : numbers (a :: t) -> forallb is_nan (a :: t) = false.
Proof.
  intro H. inversion H as [|? ? Ha _]; subst. simpl.
  unfold number in Ha. rewrite Ha. reflexivity.
Qed.

Lemma np_max_greatest t : forall a,
  numbers (a :: t) -> greatest (np_max a t) (a :: t).
Proof.
  unfold np_max.
  induction t as [|y t IH]; intros a H.
  - simpl. split; [now left|]. intros v [<-|[]]. apply fleb_refl.
    eapply numbers_in; [eassumption|now left].
  - assert (Ha : number a) by (eapply numbers_in; [eassumption|now left]).
    assert (Hy : number y) by (eapply numbers_in; [eassumption|right; now left]).
    assert (Ht : numbers t) by (inversion H as [|? ? _ H']; inversion H'; assumption).
    simpl fold_left.
    destruct (fltb a y) eqn:E.
    + destruct (IH y) as [Hin Hge]; [constructor; assumption|].
      split.
      * destruct Hin as [<-|Hin]; [right; now left|right; right; assumption].
      * intros v [<-|[<-|Hv]].
        -- apply fleb_trans with y; auto.
           ++ eapply numbers_in with (s := y :: t); [constructor; assumption|assumption].
           ++ apply fltb_fleb; assumption.
           ++ apply Hge; now left.
        -- apply Hge; now left.
        -- apply Hge; right; assumption.
    + destruct (IH a) as [Hin Hge]; [constructor; assumption|].
      split.
      * destruct Hin as [<-|Hin]; [now left|right; right; assumption].
      * intros v [<-|[<-|Hv]].
        -- apply Hge; now left.
        -- apply fleb_trans with a; auto.
           ++ eapply numbers_in with (s := a :: t); [constructor; assumption|assumption].
           ++ apply fltb_false_fleb; assumption.
           ++ apply Hge; now left.
        -- apply Hge; right; assumption.
Qed.

Lemma np_min_least t : forall a,
  numbers (a :: t) -> least (np_min a t) (a :: t).
Proof.
  unfold np_min.
  induction t as [|y t IH]; intros a H.
  - simpl. split; [now left|]. intros v [<-|[]]. apply fleb_refl.
    eapply numbers_in; [eassumption|now left].
  - assert (Ha : number a) by (eapply numbers_in; [eassumption|now left]).
    assert (Hy : number y) by (eapply numbers_in; [eassumption|right; now left]).
    assert (Ht : numbers t) by (inversion H as [|? ? _ H']; inversion H'; assumption).
    simpl fold_left.
    destruct (fltb y a) eqn:E.
    + destruct (IH y) as [Hin Hle]; [constructor; assumption|].
      split.
      * destruct Hin as [<-|Hin]; [right; now left|right; right; assumption].
      * intros v [<-|[<-|Hv]].
        -- apply fleb_trans with y; auto.
           ++ eapply numbers_in with (s := y :: t); [constructor; assumption|assumption].
           ++ apply Hle; now left.
           ++ apply fltb_fleb; assumption.
        -- apply Hle; now left.
        -- apply Hle; right; assumption.
    + destruct (IH a) as [Hin Hle]; [constructor; assumption|].
      split.
      * destruct Hin as [<-|Hin]; [now left|right; right; assumption].
      * intros v [<-|[<-|Hv]].
        -- apply Hle; now left.
        -- apply fleb_trans with a; auto.
           ++ eapply numbers_in with (s := a :: t); [constructor; assumption|assumption].
           ++ apply Hle; now left.
           ++ apply fltb_false_fleb; assumption.
        -- apply Hle; right; assumption.
Qed.

Lemma max_greatest s : s <> [] -> numbers s -> greatest (max s) s.
Proof.
  destruct s as [|a t]; [congruence|]. intros _ H.
  unfold max. rewrite forallb_is_nan_numbers, fill_nan_numbers by assumption.
  apply np_max_greatest; assumption.
Qed.

Lemma min_least s : s <> [] -> numbers s -> least (min s) s.
Proof.
  destruct s as [|a t]; [congruence|]. intros _ H.
  unfold min. rewrite forallb_is_nan_numbers, fill_nan_numbers by assumption.
  apply np_min_least; assumption.
Qed.

Lemma argmax_from_spec l : forall pre best besti i,
  numbers (pre ++ l) ->
  List.length pre = i ->
  nth_error pre besti = Some best ->
  (forall v, In v pre -> fleb v best = true) ->
  (forall j v, (j < besti)%nat -> nth_error pre j = Some v -> fltb v best = true) ->
  first_greatest (argmax_from best besti i l) (pre ++ l).
Proof.
  induction l as [|y t IH]; intros pre best besti i Hn Hlen Hbest Hge Hlt.
  - simpl. rewrite app_nil_r. exists best. auto.
  - assert (Hpre : forall v, In v pre -> number v).
    { intros v Hv. eapply numbers_in; [eassumption|]. apply in_or_app; now left. }
    assert (Hy : number y).
    { eapply numbers_in; [eassumption|]. apply in_or_app; right; now left. }
    assert (Hb : number best) by (apply Hpre; eapply nth_error_In; eassumption).
    assert (Hbi : (besti < List.length pre)%nat).
    { apply nth_error_Some. congruence. }
    replace (pre ++ y :: t)%list with ((pre ++ [y]) ++ t)%list in *
      by (rewrite <- app_assoc; reflexivity).
    simpl argmax_from. destruct (fltb best y) eqn:E.
    + apply IH; auto.
      * rewrite length_app; simpl; lia.
      * rewrite nth_error_app2 by lia. subst i. rewrite Nat.sub_diag. reflexivity.
      * intros v Hv. apply in_app_or in Hv. destruct Hv as [Hv|[<-|[]]].
        -- apply fltb_fleb; auto. apply fleb_fltb_trans with best; auto.
        -- apply fleb_refl; assumption.
      * intros j v Hj Hv. rewrite nth_error_app1 in Hv by lia.
        assert (In v pre) by (eapply nth_error_In; eassumption).
        apply fleb_fltb_trans with best; auto.
    + apply IH; auto.
      * rewrite length_app; simpl; lia.
      * rewrite nth_error_app1 by lia. assumption.
      * intros v Hv. apply in_app_or in Hv. destruct Hv as [Hv|[<-|[]]]; auto.
        apply fltb_false_fleb; assumption.
      * intros j v Hj Hv. rewrite nth_error_app1 in Hv by lia. eauto.
Qed.

Lemma first_greatest_unique s k k' :
  numbers s -> first_greatest k s -> first_greatest k' s -> k = k'.
Proof.
  intros Hn (b & Hb & Hge & Hlt) (b' & Hb' & Hge' & Hlt').
  assert (Nb : number b) by (eapply numbers_in; [eassumption|eapply nth_error_In; eassumption]).
  assert (Nb' : number b') by (eapply numbers_in; [eassumption|eapply nth_error_In; eassumption]).
  destruct (Nat.lt_trichotomy k k') as [L|[E|L]]; [|assumption|].
  - specialize (Hlt' _ _ L Hb). specialize (Hge b' (nth_error_In _ _ Hb')).
    apply fltb_not_fleb in Hlt'; auto. congruence.
  - specialize (Hlt _ _ L Hb'). specialize (Hge' b (nth_error_In _ _ Hb)).
    apply fltb_not_fleb in Hlt; auto. congruence.
Qed.

Lemma idxmax_first s :
  s <> [] -> numbers s -> exists k, idxmax s = Ok k /\ first_greatest k s.
Proof.
  destruct s as [|a t]; [congruence|]. intros _ H.
  unfold idxmax. rewrite forallb_is_nan_numbers, fill_nan_numbers by assumption.
  eexists; split; [reflexivity|].
  apply (argmax_from_spec t [a] a 0%nat 1%nat); auto.
  - intros v [<-|[]]. apply fleb_refl. eapply numbers_in; [eassumption|now left].
  - intros j v Hj; lia.
Qed.

Lemma getitem_length df name col :
  getitem df name = Ok col -> List.length col = len df.
Proof.
  unfold getitem, len. destruct (index_of name (columns df)); [|discriminate].
  intro H; injection H as <-. apply length_map.
Qed.

(** A column lists the cells of the rows, in the order of the rows. *)
Lemma getitem_nth df name col k :
  getitem df name = Ok col ->
  nth_error col k =
  match nth_error (rows df) k with
  | Some row =>
      match row_getitem (columns df) row name with
      | Ok v => Some v
      | Raise _ => None
      end
  | None => None
  end.
Proof.
  unfold getitem, row_getitem. destruct (index_of name (columns df)); [|discriminate].
  intro H; injection H as <-. rewrite nth_error_map.
  destruct (nth_error (rows df) k); reflexivity.
Qed.

End PandasFacts.

(* ===================================================================== *)
(** * Facts about the text of numbers *)
(* ===================================================================== *)

Module PyFacts.
Import Py Spec.

Lemma append_assoc (a b c : string) : (a ++ b) ++ c = a ++ (b ++ c).
Proof. induction a as [|x a IH]; simpl; [reflexivity|now rewrite IH]. Qed.

Lemma append_nil_r (a : string) : a ++ "" = a.
Proof. induction a as [|x a IH]; simpl; [reflexivity|now rewrite IH]. Qed.

Lemma length_append (a b : string) :
  String.length (a ++ b) = (String.length a + String.length b)%nat.
Proof. induction a as [|x a IH]; simpl; [reflexivity|now rewrite IH]. Qed.

Lemma length_digits_fixed d : forall n, String.length (digits_fixed d n) = d.
Proof.
  induction d as [|d IH]; intro n; simpl; [reflexivity|].
  rewrite length_append, IH. simpl. lia.
Qed.

(** [div_half_even] returns a nearest integer to the quotient. *)
Lemma div_half_even_nearest num den :
  0 <= num -> 0 < den ->
  let n := div_half_even num den in
  0 <= n /\ - den <= 2 * num - 2 * n * den <= den.
Proof.
  intros Hnum Hden. unfold div_half_even.
  pose proof (Z.div_mod num den ltac:(lia)) as Hdm.
  pose proof (Z.mod_pos_bound num den Hden) as Hr.
  pose proof (Z.div_pos num den Hnum Hden) as Hq.
  set (q := num / den) in *. set (r := num mod den) in *.
  cbv zeta.
  destruct (Z.compare_spec (2 * r) den) as [E|L|G]; [destruct (Z.even q)| |];
    split; try lia; split; nia.
Qed.

Lemma scaled_round_nonneg d m e : 0 <= scaled_round d m e.
Proof.
  unfold scaled_round.
  assert (0 < 10 ^ Z.of_nat d) by (apply Z.pow_pos_nonneg; lia).
  destruct e as [|p|p].
  - cbv beta iota zeta. rewrite Z.pow_0_r. nia.
  - cbv beta iota zeta.
    assert (0 < 2 ^ Z.pos p) by (apply Z.pow_pos_nonneg; lia). nia.
  - cbv beta iota zeta. apply div_half_even_nearest; [nia|].
    rewrite Z.pow_pos_fold. apply Z.pow_pos_nonneg; lia.
Qed.

Lemma pow2Q_pos e : (0 < pow2Q e)%Q.
Proof.
  destruct e as [|p|p]; unfold pow2Q, Qlt; simpl; lia.
Qed.

Lemma Qabs_to_Q s m e :
  (Qabs (to_Q (S754_finite s m e)) == inject_Z (Zpos m) * pow2Q e)%Q.
Proof.
  assert (H : (0 <= inject_Z (Zpos m) * pow2Q e)%Q).
  { apply Qmult_le_0_compat; [unfold Qle; simpl; lia|apply Qlt_le_weak, pow2Q_pos]. }
  unfold to_Q. destruct s.
  - rewrite Qabs_opp. apply Qabs_pos; assumption.
  - apply Qabs_pos; assumption.
Qed.

Ltac q2z :=
  unfold Qle, Qminus, Qplus, Qopp, Qmult, inject_Z; cbn [Qnum Qden];
  rewrite ?Pos.mul_1_l, ?Pos.mul_1_r, ?Z.mul_1_r, ?Pos2Z.inj_mul.

Lemma scaled_round_nearest d m e :
  (Qabs (inject_Z (Zpos m) * pow2Q e * inject_Z (10 ^ Z.of_nat d)
         - inject_Z (scaled_round d m e)) <= 1 # 2)%Q.
Proof.
  assert (HT : 0 < 10 ^ Z.of_nat d) by (apply Z.pow_pos_nonneg; lia).
  set (T := 10 ^ Z.of_nat d) in *.
  apply Qabs_Qle_condition.
  unfold scaled_round. fold T. destruct e as [|p|p]; cbv beta iota zeta.
  - rewrite Z.pow_0_r. unfold pow2Q. q2z. split; nia.
  - unfold pow2Q. rewrite Z.pow_pos_fold.
    assert (0 < 2 ^ Z.pos p) by (apply Z.pow_pos_nonneg; lia).
    set (P := 2 ^ Z.pos p) in *. q2z. split; nia.
  - pose proof (div_half_even_nearest (Z.pos m * T) (Z.pow_pos 2 p)) as Hn.
    assert (HD : Z.pow_pos 2 p = Z.pos (2 ^ p)) by (rewrite Pos2Z.inj_pow; reflexivity).
    rewrite HD in *. cbv zeta in Hn.
    destruct Hn as [Hn0 Hn]; [nia|lia|].
    set (n := div_half_even (Z.pos m * T) (Z.pos (2 ^ p))) in *.
    unfold pow2Q. set (D := (2 ^ p)%positive) in *. q2z. split; nia.
Qed.

Lemma format_fixed_rounded d f :
  (0 < d)%nat -> is_finite f = true -> rounded_to d f (format_fixed d f).
Proof.
  intros Hd Hf. destruct f as [s|s| |s m e]; try discriminate.
  - exists 0. split; [lia|]. split; [|split].
    + simpl. unfold Qle; simpl. lia.
    + simpl. unfold fixed_digits. destruct d; [lia|reflexivity].
    + apply length_digits_fixed.
  - exists (scaled_round d m e). split; [apply scaled_round_nonneg|]. split; [|split].
    + rewrite Qabs_to_Q. apply scaled_round_nearest.
    + simpl. unfold fixed_digits. destruct d; [lia|reflexivity].
    + apply length_digits_fixed.
Qed.

Lemma pow10Q_power k : (pow10Q k == inject_Z 10 ^ k)%Q.
Proof.
  destruct k as [|p|p]; simpl pow10Q.
  - reflexivity.
  - rewrite Z.pow_pos_fold. apply Zpower_Qpower. lia.
  - change (inject_Z 10 ^ Z.neg p)%Q with (/ (inject_Z 10 ^ Z.pos p))%Q.
    rewrite <- Zpower_Qpower by lia. rewrite <- Z.pow_pos_fold.
    rewrite <- Pos2Z.inj_pow_pos. reflexivity.
Qed.

Lemma pow10Q_succ k : (pow10Q (k + 1) == inject_Z 10 * pow10Q k)%Q.
Proof.
  rewrite !pow10Q_power. rewrite Qpower_plus by discriminate.
  rewrite Qmult_comm. reflexivity.
Qed.

#[local] Instance reads_back_comp m e :
  Morphisms.Proper (Morphisms.respectful Qeq eq) (reads_back m e).
Proof.
  intros c c' H. unfold reads_back, Qltb.
  set (lo := (inject_Z (Z.pos m) * pow2Q e - half_gap_down m e)%Q).
  set (hi := (inject_Z (Z.pos m) * pow2Q e + half_gap_up e)%Q).
  assert (E1 : (lo ?= c)%Q = (lo ?= c')%Q) by (apply Qcompare_comp; [reflexivity|assumption]).
  assert (E2 : (c ?= hi)%Q = (c' ?= hi)%Q) by (apply Qcompare_comp; [assumption|reflexivity]).
  assert (E3 : Qle_bool lo c = Qle_bool lo c') by (apply Qleb_comp; [reflexivity|assumption]).
  assert (E4 : Qle_bool c hi = Qle_bool c' hi) by (apply Qleb_comp; [assumption|reflexivity]).
  rewrite E1, E2, E3, E4. reflexivity.
Qed.

Lemma half_gap_down_pos m e : (0 < half_gap_down m e)%Q.
Proof. unfold half_gap_down. destruct (_ && _); apply pow2Q_pos. Qed.

Lemma reads_back_exact m e c :
  (c == inject_Z (Zpos m) * pow2Q e)%Q -> reads_back m e c = true.
Proof.
  intro H. rewrite H. unfold reads_back.
  set (v := (inject_Z (Z.pos m) * pow2Q e)%Q).
  pose proof (half_gap_down_pos m e) as Hd.
  pose proof (pow2Q_pos (e - 1)) as Hu. fold (half_gap_up e) in Hu.
  assert (L : (v - half_gap_down m e < v)%Q).
  { rewrite <- (Qplus_0_r v) at 2. unfold Qminus. apply Qplus_lt_r.
    apply Qopp_lt_compat in Hd. exact Hd. }
  assert (U : (v < v + half_gap_up e)%Q).
  { rewrite <- (Qplus_0_r v) at 1. apply Qplus_lt_r. exact Hu. }
  destruct (Z.even (Z.pos m)).
  - apply andb_true_intro; split; apply Qle_bool_iff, Qlt_le_weak; assumption.
  - unfold Qltb.
    rewrite (proj1 (Qlt_alt _ _) L), (proj1 (Qlt_alt _ _) U). reflexivity.
Qed.

Lemma exact_decimal_reads_back m e :
  let '(d, k) := exact_decimal m e in
  reads_back m e (inject_Z d * pow10Q k) = true.
Proof.
  unfold exact_decimal. destruct e as [|p|p]; apply reads_back_exact.
  - rewrite Z.pow_0_r. unfold pow10Q, pow2Q. q2z. unfold Qeq; simpl. lia.
  - unfold pow10Q, pow2Q. rewrite Z.pow_pos_fold. q2z. unfold Qeq; simpl. lia.
  - unfold pow10Q, pow2Q. q2z. unfold Qeq; cbn [Qnum Qden].
    rewrite !Pos2Z.inj_pow, Z.pow_pos_fold.
    change (Z.pos 10) with (5 * 2). rewrite Z.pow_mul_l. ring.
Qed.

Lemma candidate_reads_back m e t p d k :
  candidate m e t p = Some (d, k) ->
  reads_back m e (inject_Z d * pow10Q k) = true.
Proof.
  unfold candidate.
  set (v := (inject_Z (Z.pos m) * pow2Q e)%Q).
  set (u := pow10Q (t - p)).
  set (dlo := Qfloor (v / u)).
  destruct (reads_back m e (inject_Z dlo * u)) eqn:Elo;
    destruct (reads_back m e (inject_Z (dlo + 1) * u)) eqn:Ehi;
    try discriminate;
    try (intro H; injection H as <- <-; assumption).
  destruct (v - inject_Z dlo * u ?= inject_Z (dlo + 1) * u - v)%Q;
    [destruct (Z.even dlo)| |];
    intro H; injection H as <- <-; assumption.
Qed.

Lemma shortest_from_reads_back fuel m e t : forall p d k,
  shortest_from fuel m e t p = (d, k) ->
  reads_back m e (inject_Z d * pow10Q k) = true.
Proof.
  induction fuel as [|fuel IH]; intros p d k H; simpl in H.
  - pose proof (exact_decimal_reads_back m e) as X. rewrite H in X. exact X.
  - destruct (candidate m e t p) as [[d' k']|] eqn:E.
    + injection H as <- <-. eapply candidate_reads_back; eassumption.
    + eapply IH; eassumption.
Qed.

Lemma strip_zeros_value fuel : forall d k d' k',
  strip_zeros fuel d k = (d', k') ->
  (inject_Z d' * pow10Q k' == inject_Z d * pow10Q k)%Q.
Proof.
  induction fuel as [|fuel IH]; intros d k d' k' H; simpl in H.
  - injection H as <- <-. reflexivity.
  - destruct ((d mod 10 =? 0) && negb (d =? 0)) eqn:E.
    + apply IH in H. rewrite H. rewrite pow10Q_succ.
      apply andb_prop in E. destruct E as [E _]. apply Z.eqb_eq in E.
      rewrite Qmult_assoc. apply Qmult_comp; [|reflexivity].
      rewrite <- inject_Z_mult. apply inject_Z_injective.
      pose proof (Z.div_mod d 10 ltac:(lia)). lia.
    + injection H as <- <-. reflexivity.
Qed.

Lemma shortest_digits_reads_back m e d k :
  shortest_digits m e = (d, k) ->
  reads_back m e (inject_Z d * pow10Q k) = true.
Proof.
  unfold shortest_digits.
  destruct (shortest_from 17 m e (decpt_of m e) 1) as [d0 k0] eqn:E.
  intro H. apply strip_zeros_value in H. rewrite H.
  eapply shortest_from_reads_back; eassumption.
Qed.

Lemma float_str_raw f : raw_text f (float_str f).
Proof.
  destruct f as [s|s| |s m e]; simpl; try reflexivity.
  destruct (shortest_digits m e) as [d k] eqn:E.
  exists d, k. split; [reflexivity|].
  apply shortest_digits_reads_back; assumption.
Qed.

End PyFacts.

(* ===================================================================== *)
(** * Facts about the table, the charts and the document *)
(* ===================================================================== *)

Module ReportFacts.
Import Py Pandas Latex Spec FloatOrder PandasFacts PyFacts.

(** Row selection *)

Lemma stride_from_nth {A : Type} (step : nat) (l : list A) :
  (1 <= step)%nat ->
  forall skip k, (skip < step)%nat ->
  nth_error (stride_from step skip l) k = nth_error l (skip + k * step)%nat.
Proof.
  intro Hs. induction l as [|a t IH]; intros skip k Hk.
  - simpl. destruct k; destruct (skip + _)%nat; reflexivity.
  - destruct skip as [|s]; simpl stride_from.
    + destruct k as [|k]; [reflexivity|].
      simpl nth_error at 1. rewrite IH by lia.
      replace (0 + S k * step)%nat with (S (step - 1 + k * step)) by lia.
      reflexivity.
    + rewrite IH by lia. reflexivity.
Qed.

Lemma stride_from_length {A : Type} (step : nat) (l : list A) :
  (1 <= step)%nat ->
  forall skip, (skip < step)%nat ->
  List.length (stride_from step skip l)
  = ((List.length l + step - 1 - skip) / step)%nat.
Proof.
  intro Hs. induction l as [|a t IH]; intros skip Hk.
  - simpl. symmetry. apply Nat.div_small. lia.
  - destruct skip as [|s]; simpl stride_from; simpl List.length.
    + rewrite IH by lia.
      replace (S (List.length t) + step - 1 - 0)%nat
        with (List.length t + 1 * step)%nat by lia.
      rewrite Nat.div_add by lia.
      replace (List.length t + step - 1 - (step - 1))%nat with (List.length t) by lia.
      lia.
    + rewrite IH by lia. f_equal. lia.
Qed.

Lemma iloc_step_nth {A : Type} (step : nat) (l : list A) k :
  (1 <= step)%nat ->
  nth_error (iloc_step step l) k = nth_error l (k * step)%nat.
Proof. intro Hs. unfold iloc_step. rewrite stride_from_nth by lia. reflexivity. Qed.

Lemma iloc_step_length {A : Type} (step : nat) (l : list A) :
  (1 <= step)%nat ->
  List.length (iloc_step step l) = ((List.length l + step - 1) / step)%nat.
Proof.
  intro Hs. unfold iloc_step. rewrite stride_from_length by lia.
  f_equal. lia.
Qed.

(** The table loop adds the lines of the selected rows, in order. *)

Lemma table_loop_lines cols selected : forall code,
  table_loop cols selected code
  = (lines <- mapM (table_line cols) selected ;; Ok (code ++ join "" lines)).
Proof.
  induction selected as [|row rest IH]; intro code; simpl.
  - rewrite append_nil_r. reflexivity.
  - destruct (table_line cols row) as [line|e]; simpl; [|reflexivity].
    rewrite IH. destruct (mapM (table_line cols) rest) as [lines|e]; simpl; [|reflexivity].
    rewrite append_assoc. destruct lines; simpl; [rewrite append_nil_r|]; reflexivity.
Qed.

Lemma mapM_Forall2 {A B : Type} (f : A -> result B) l : forall out,
  mapM f l = Ok out -> Forall2 (fun a b => f a = Ok b) l out.
Proof.
  induction l as [|a t IH]; intros out H; simpl in H.
  - injection H as <-. constructor.
  - destruct (f a) as [b|e] eqn:E; simpl in H; [|discriminate].
    destruct (mapM f t) as [bs|e]; simpl in H; [|discriminate].
    injection H as <-. constructor; auto.
Qed.

Lemma mapM_total {A B : Type} (f : A -> result B) l :
  (forall a, In a l -> exists b, f a = Ok b) -> exists out, mapM f l = Ok out.
Proof.
  induction l as [|a t IH]; intro H; simpl.
  - eexists; reflexivity.
  - destruct (H a (or_introl eq_refl)) as [b ->].
    destruct IH as [bs ->]; [intros; apply H; now right|].
    eexists; reflexivity.
Qed.

Lemma table_line_total df row :
  has_columns df -> exists line, table_line (columns df) row = Ok line.
Proof.
  intros (jx & jv & jm & Hx & Hv & Hm).
  unfold table_line, row_getitem. rewrite Hx, Hv, Hm. simpl. eexists; reflexivity.
Qed.

Ltac inv_bind H :=
  repeat match type of H with
  | bind ?m _ = Ok _ =>
      let E := fresh "E" in destruct m eqn:E; cbn [bind] in H; [|discriminate H]
  | (let '(_, _) := ?r in _) = Ok _ => destruct r
  end.

Ltac pick := cbn [In]; repeat (first [left; reflexivity | right]).

Lemma getitem_has df name j :
  index_of name (columns df) = Some j ->
  getitem df name = Ok (map (cell j) (rows df)).
Proof. unfold getitem. intros ->. reflexivity. Qed.

Lemma create_data_table_total df :
  has_columns df -> exists table, create_data_table df = Ok table.
Proof.
  intro Hc. unfold create_data_table. rewrite table_loop_lines.
  destruct (mapM_total (table_line (columns df)) (iloc_step (table_step df) (rows df)))
    as [lines ->].
  { intros row _. apply table_line_total; assumption. }
  cbn [bind]. eexists; reflexivity.
Qed.

Lemma argmax_from_bound l : forall best besti i,
  (besti < i)%nat -> (argmax_from best besti i l < i + List.length l)%nat.
Proof.
  induction l as [|y t IH]; intros best besti i H; simpl.
  - lia.
  - destruct (fltb best y).
    + specialize (IH y i (S i)). lia.
    + specialize (IH best besti (S i)). lia.
Qed.

Lemma idxmax_total s :
  s <> [] -> forallb is_nan s = false ->
  exists k, idxmax s = Ok k /\ (k < List.length s)%nat.
Proof.
  intros Hne Hnan. unfold idxmax. destruct s as [|a t]; [congruence|].
  rewrite Hnan. cbn [map]. eexists; split; [reflexivity|].
  pose proof (argmax_from_bound (map (fill_nan neg_inf) t) (fill_nan neg_inf a) 0 1).
  rewrite length_map in H. simpl List.length. lia.
Qed.

(** On a frame with the three columns, at least one row and a moment
    that is not NaN throughout, the document is assembled. *)
Lemma report_document_total w df image :
  has_columns df ->
  (0 < len df)%nat ->
  (forall ms, getitem df "Bending Moment" = Ok ms -> forallb is_nan ms = false) ->
  exists doc, report_document w df image = Ok doc.
Proof.
  intros Hc Hlen Hnan.
  destruct (create_data_table_total df Hc) as [table Ht].
  destruct Hc as (jx & jv & jm & Hx & Hv & Hm).
  apply getitem_has in Hx, Hv, Hm.
  specialize (Hnan _ Hm).
  assert (Hrows : rows df <> []).
  { unfold len in Hlen. destruct (rows df); [simpl in Hlen; lia|discriminate]. }
  destruct (idxmax_total (map (cell jm) (rows df))) as (k & Hk & Hkl); auto.
  { intro E. apply map_eq_nil in E. contradiction. }
  assert (Hxk : exists xk, nth_error (map (cell jx) (rows df)) k = Some xk).
  { destruct (nth_error (map (cell jx) (rows df)) k) eqn:E; [eexists; reflexivity|].
    apply nth_error_None in E. rewrite length_map in *. lia. }
  destruct Hxk as [xk Hxk].
  assert (Hmin : exists lo, py_min (map (cell jv) (rows df)) = Ok lo).
  { destruct (rows df); [congruence|]. simpl. eexists; reflexivity. }
  assert (Hmax : exists hi, py_max (map (cell jv) (rows df)) = Ok hi).
  { destruct (rows df); [congruence|]. simpl. eexists; reflexivity. }
  assert (Htop : exists top, py_max (map (cell jm) (rows df)) = Ok top).
  { destruct (rows df); [congruence|]. simpl. eexists; reflexivity. }
  destruct Hmin as [lo Hmin], Hmax as [hi Hmax], Htop as [top Htop].
  unfold report_document, introduction, beam_length, analysis_data, max_shear,
    max_moment, max_moment_location, loc, diagrams.
  repeat progress
    (rewrite ?Hx, ?Ht, ?Hv, ?Hm, ?Hk, ?Hxk, ?Hmin, ?Hmax, ?Htop; cbn [bind]).
  eexists; reflexivity.
Qed.

Lemma report_document_image w df image doc :
  report_document w df image = Ok doc -> has_image doc = path_exists w image.
Proof.
  intro H. unfold report_document in H. inv_bind H.
  injection H as <-.
  unfold introduction in E. inv_bind E. injection E as <-.
  unfold analysis_data in E0. inv_bind E0. injection E0 as <- <-.
  unfold diagrams in E1. inv_bind E1. injection E1 as <-.
  unfold has_image. cbn [data].
  destruct (path_exists w image); reflexivity.
Qed.

Lemma nth_error_combine {A B : Type} (l : list A) : forall (l' : list B) k a b,
  nth_error l k = Some a -> nth_error l' k = Some b ->
  nth_error (combine l l') k = Some (a, b).
Proof.
  induction l as [|x t IH]; intros l' k a b Ha Hb.
  - destruct k; discriminate.
  - destruct l' as [|y t']; [destruct k; discriminate|].
    destruct k as [|k]; simpl in *.
    + congruence.
    + apply IH; assumption.
Qed.

(** The charts of the document are those of the three columns. *)
Lemma report_document_charts w df image doc :
  report_document w df image = Ok doc ->
  exists xs vs ms,
    getitem df "x" = Ok xs
    /\ getitem df "Shear force" = Ok vs
    /\ getitem df "Bending Moment" = Ok ms
    /\ contains (NoEscape (create_tikz_sfd xs vs)) doc
    /\ contains (NoEscape (create_tikz_bmd xs ms)) doc.
Proof.
  intro H. unfold report_document in H. inv_bind H.
  injection H as <-.
  unfold diagrams in E1. inv_bind E1. injection E1 as <-.
  match goal with
  | Hx : getitem df "x" = Ok ?xs,
    Hv : getitem df "Shear force" = Ok ?vs,
    Hm : getitem df "Bending Moment" = Ok ?ms |- _ =>
      exists xs, vs, ms; split; [reflexivity|split; [reflexivity|split; [reflexivity|]]]
  end.
  split.
  - eexists. split; [cbn [data In]; do 7 right; left; reflexivity|].
    eapply occurs_section; [|eapply occurs_subsection; [|apply occurs_here]]; pick.
  - eexists. split; [cbn [data In]; do 7 right; left; reflexivity|].
    eapply occurs_section; [|eapply occurs_subsection; [|apply occurs_here]];
      cbn [In]; [right; right; left; reflexivity|pick].
Qed.

End ReportFacts.

(* ===================================================================== *)
(** * The properties of the specification *)
(* ===================================================================== *)

Import Py Pandas Latex Spec FloatOrder PandasFacts PyFacts ReportFacts.

(** C1.  [create_data_table] takes the rows with stride 1 when the
    dataset has at most 15 rows and with stride 2 otherwise, in order and
    from the first row on: the [k]-th selected row is row [k * stride].
    A dataset of 15 rows keeps its 15 rows, one of 16 rows keeps 8, the
    rows 0, 2, ..., 14.  The table fragment holds one line per selected
    row, in that order. *)
Theorem table_row_selection (df : DataFrame) :
  let step := if (len df <=? 15)%nat then 1%nat else 2%nat in
  let selected := iloc_step step (rows df) in
  (forall k, nth_error selected k = nth_error (rows df) (k * step))
  /\ List.length selected = ((len df + step - 1) / step)%nat
  /\ (len df = 15%nat -> List.length selected = 15%nat /\ selected = rows df)
  /\ (len df = 16%nat ->
      List.length selected = 8%nat
      /\ forall k, (k < 8)%nat -> nth_error selected k = nth_error (rows df) (2 * k))
  /\ create_data_table df
     = (lines <- mapM (table_line (columns df)) selected ;;
        Ok (table_head ++ join "" lines ++ table_tail))
  /\ (has_columns df ->
      exists lines,
        create_data_table df = Ok (table_head ++ join "" lines ++ table_tail)
        /\ Forall2 (fun row line => table_line (columns df) row = Ok line) selected lines).
Proof.
  intros step selected.
  assert (Hs : (1 <= step)%nat) by (unfold step; destruct (len df <=? 15)%nat; lia).
  assert (Hlen : List.length selected = ((len df + step - 1) / step)%nat).
  { unfold selected. apply iloc_step_length; assumption. }
  assert (Ht : create_data_table df
               = (lines <- mapM (table_line (columns df)) selected ;;
                  Ok (table_head ++ join "" lines ++ table_tail))).
  { unfold create_data_table, table_step. fold step. fold selected.
    rewrite table_loop_lines.
    destruct (mapM (table_line (columns df)) selected); cbn [bind]; [|reflexivity].
    rewrite append_assoc. reflexivity. }
  split; [|split; [exact Hlen|split; [|split; [|split; [exact Ht|]]]]].
  - intro k. apply iloc_step_nth; assumption.
  - intro H15. assert (step = 1%nat) as E1 by (unfold step; rewrite H15; reflexivity).
    split.
    + rewrite Hlen, H15, E1. reflexivity.
    + apply nth_error_ext. intro k. unfold selected.
      rewrite iloc_step_nth by assumption. rewrite E1. f_equal. lia.
  - intro H16. assert (step = 2%nat) as E2 by (unfold step; rewrite H16; reflexivity).
    split.
    + rewrite Hlen, H16, E2. reflexivity.
    + intros k _. unfold selected. rewrite iloc_step_nth by assumption.
      rewrite E2. f_equal. lia.
  - intro Hc.
    destruct (mapM_total (table_line (columns df)) selected) as [lines Hl].
    { intros row _. apply table_line_total; assumption. }
    exists lines. split.
    + rewrite Ht, Hl. reflexivity.
    + apply mapM_Forall2; assumption.
Qed.

(** C10.  Every line of the table fragment shows the position of its
    row with one decimal and the shear force and bending moment with two
    decimals: each is the sign and the digits of the nearest multiple of
    0.1 (resp. 0.01) of the cell, whenever the cell is a real number. *)
Theorem table_rows_rounded (df : DataFrame) :
  has_columns df ->
  exists table lines,
    create_data_table df = Ok table
    /\ table = table_head ++ join "" lines ++ table_tail
    /\ Forall2
         (fun row line =>
            exists x v m,
              row_getitem (columns df) row "x" = Ok x
              /\ row_getitem (columns df) row "Shear force" = Ok v
              /\ row_getitem (columns df) row "Bending Moment" = Ok m
              /\ line = format_fixed 1 x ++ " & " ++ format_fixed 2 v ++ " & "
                        ++ format_fixed 2 m ++ " \\" ++ lf ++ "\hline" ++ lf
              /\ (is_finite x = true -> rounded_to 1 x (format_fixed 1 x))
              /\ (is_finite v = true -> rounded_to 2 v (format_fixed 2 v))
              /\ (is_finite m = true -> rounded_to 2 m (format_fixed 2 m)))
         (iloc_step (table_step df) (rows df)) lines.
Proof.
  intro Hc.
  destruct (mapM_total (table_line (columns df)) (iloc_step (table_step df) (rows df)))
    as [lines Hl].
  { intros row _. apply table_line_total; assumption. }
  exists (table_head ++ join "" lines ++ table_tail), lines.
  split; [|split; [reflexivity|]].
  - unfold create_data_table. rewrite table_loop_lines, Hl. cbn [bind].
    rewrite append_assoc. reflexivity.
  - apply mapM_Forall2 in Hl.
    eapply Forall2_impl; [|exact Hl]. cbv beta. intros row line Hline.
    unfold table_line in Hline.
    destruct (row_getitem (columns df) row "x") as [x|] eqn:Ex; [|discriminate].
    destruct (row_getitem (columns df) row "Shear force") as [v|] eqn:Ev; [|discriminate].
    destruct (row_getitem (columns df) row "Bending Moment") as [m|] eqn:Em; [|discriminate].
    simpl in Hline. injection Hline as <-.
    exists x, v, m. repeat split; try reflexivity;
      intro Hf; apply format_fixed_rounded; auto.
Qed.

(** C6.  For a non-empty dataset whose positions are numbers, the beam
    length is the difference (the binary64 subtraction) of a greatest and
    a least position of the dataset, not a sum over the positions. *)
Theorem beam_length_extremes (df : DataFrame) (xs : Series) :
  getitem df "x" = Ok xs ->
  (0 < len df)%nat ->
  numbers xs ->
  exists hi lo,
    greatest hi xs /\ least lo xs /\ beam_length df = Ok (fsub hi lo).
Proof.
  intros Hx Hlen Hn.
  assert (Hne : xs <> []).
  { intro E. apply getitem_length in Hx. rewrite E in Hx. simpl in Hx. lia. }
  exists (max xs), (min xs). split; [|split].
  - apply max_greatest; assumption.
  - apply min_least; assumption.
  - unfold beam_length. rewrite Hx. reflexivity.
Qed.

(** C7.  For a non-empty dataset whose shear forces are numbers, the
    reported maximum shear is a greatest item of the absolute values of
    the shear forces, and it is not below zero. *)
Theorem max_shear_greatest_abs (df : DataFrame) (vs : Series) :
  getitem df "Shear force" = Ok vs ->
  (0 < len df)%nat ->
  numbers vs ->
  exists top,
    max_shear df = Ok top
    /\ greatest top (map fabs vs)
    /\ fleb (S754_zero false) top = true.
Proof.
  intros Hv Hlen Hn.
  assert (Hne : map fabs vs <> []).
  { intro E. apply getitem_length in Hv. apply map_eq_nil in E. rewrite E in Hv.
    simpl in Hv. lia. }
  assert (Hna : numbers (map fabs vs)).
  { unfold numbers in *. rewrite Forall_forall in *. intros a Ha.
    apply in_map_iff in Ha. destruct Ha as (v & <- & Hin). apply fabs_number; auto. }
  pose proof (max_greatest _ Hne Hna) as Hg.
  exists (max (map fabs vs)). split; [|split; [exact Hg|]].
  - unfold max_shear. rewrite Hv. reflexivity.
  - destruct Hg as [Hin _]. apply in_map_iff in Hin.
    destruct Hin as (v & Ev & Hin). rewrite <- Ev. apply fabs_nonneg.
    apply (numbers_in vs); assumption.
Qed.

(** C8.  For a dataset whose bending moments are numbers: when the
    record at position [i] has a greatest moment and no earlier record
    has an equal one (so [i] is the first of the records that tie for
    the maximum), the reported position of the maximum moment is the
    position of record [i]. *)
Theorem max_moment_location_first (df : DataFrame) (xs ms : Series)
  (i : nat) (xi mi : float) :
  getitem df "x" = Ok xs ->
  getitem df "Bending Moment" = Ok ms ->
  numbers ms ->
  nth_error xs i = Some xi ->
  nth_error ms i = Some mi ->
  (forall v, In v ms -> fleb v mi = true) ->
  (forall j v, (j < i)%nat -> nth_error ms j = Some v -> feqb v mi = false) ->
  max_moment_location df = Ok xi.
Proof.
  intros Hx Hm Hn Hxi Hmi Hge Hfirst.
  assert (Hne : ms <> []) by (intro E; rewrite E in Hmi; destruct i; discriminate).
  destruct (idxmax_first ms Hne Hn) as (k & Hk & Hfg).
  assert (Nmi : number mi).
  { eapply numbers_in; [eassumption|eapply nth_error_In; eassumption]. }
  assert (Hi : first_greatest i ms).
  { exists mi. split; [assumption|split; [assumption|]].
    intros j v Hj Hv.
    assert (Nv : number v).
    { eapply numbers_in; [eassumption|eapply nth_error_In; eassumption]. }
    apply fleb_neq_fltb; auto.
    - apply Hge. eapply nth_error_In; eassumption.
    - eapply Hfirst; eassumption. }
  assert (k = i) by (eapply first_greatest_unique; eassumption). subst k.
  unfold max_moment_location, loc. rewrite Hm. cbn [bind]. rewrite Hk. cbn [bind].
  rewrite Hx. cbn [bind]. rewrite Hxi. reflexivity.
Qed.

(** C9.  The image block is in the assembled document exactly when the
    configured image path exists.  When the path does not exist, the
    document is assembled all the same, without an image block, and
    nothing is raised. *)
Theorem image_block_iff_path_exists (w : World) (df : DataFrame) (image : string) :
  (forall doc, report_document w df image = Ok doc ->
     has_image doc = path_exists w image)
  /\ (has_columns df ->
      (0 < len df)%nat ->
      (forall ms, getitem df "Bending Moment" = Ok ms -> forallb is_nan ms = false) ->
      path_exists w image = false ->
      exists doc, report_document w df image = Ok doc /\ has_image doc = false).
Proof.
  split.
  - intros doc H. apply report_document_image with (df := df); assumption.
  - intros Hc Hlen Hnan Hp.
    destruct (report_document_total w df image Hc Hlen Hnan) as [doc Hdoc].
    exists doc. split; [assumption|].
    rewrite <- Hp. apply report_document_image with (df := df); assumption.
Qed.

(** C5.  In every assembled document the two charts list one coordinate
    pair per record, in the order of the dataset.  In the moment chart
    the moment is shown rounded to two decimals (whenever it is a real
    number); in the shear chart the shear force is shown unrounded, as
    digits that read back as the very same binary64.  The binary64 of
    12.3456 is shown as 12.35 in the moment chart and as 12.3456 in the
    shear chart. *)
Theorem chart_coordinates (w : World) (df : DataFrame) (image : string)
  (doc : Document) :
  report_document w df image = Ok doc ->
  exists xs vs ms sfd bmd,
    getitem df "x" = Ok xs
    /\ getitem df "Shear force" = Ok vs
    /\ getitem df "Bending Moment" = Ok ms
    /\ contains (NoEscape (sfd_head ++ join " " sfd ++ sfd_tail)) doc
    /\ contains (NoEscape (bmd_head ++ join " " bmd ++ bmd_tail)) doc
    /\ List.length sfd = len df
    /\ List.length bmd = len df
    /\ (forall k x v m,
          nth_error xs k = Some x ->
          nth_error vs k = Some v ->
          nth_error ms k = Some m ->
          nth_error sfd k = Some ("(" ++ float_str x ++ "," ++ float_str v ++ ")")
          /\ raw_text v (float_str v)
          /\ nth_error bmd k = Some ("(" ++ float_str x ++ "," ++ format_fixed 2 m ++ ")")
          /\ (is_finite m = true -> rounded_to 2 m (format_fixed 2 m)))
    /\ reads_back 6949954944958149 (-49) (123456 # 10000) = true
    /\ format_fixed 2 twelve_3456 = "12.35"
    /\ float_str twelve_3456 = "12.3456".
Proof.
  intro H.
  destruct (report_document_charts _ _ _ _ H) as (xs & vs & ms & Hx & Hv & Hm & Hs & Hb).
  exists xs, vs, ms.
  exists (map (fun '(x, y) => "(" ++ float_str x ++ "," ++ float_str y ++ ")")
              (combine xs vs)).
  exists (map (fun '(x, y) => "(" ++ float_str x ++ "," ++ format_fixed 2 y ++ ")")
              (combine xs ms)).
  pose proof (getitem_length _ _ _ Hx) as Lx.
  pose proof (getitem_length _ _ _ Hv) as Lv.
  pose proof (getitem_length _ _ _ Hm) as Lm.
  repeat (split; [assumption|]).
  split; [rewrite length_map, length_combine; lia|].
  split; [rewrite length_map, length_combine; lia|].
  split; [|split; [vm_compute; reflexivity|split; vm_compute; reflexivity]].
  intros k x v m Kx Kv Km.
  split; [|split; [apply float_str_raw|split]].
  - rewrite nth_error_map, (nth_error_combine _ _ _ _ _ Kx Kv). reflexivity.
  - rewrite nth_error_map, (nth_error_combine _ _ _ _ _ Kx Km). reflexivity.
  - intro Hf. apply format_fixed_rounded; [lia|assumption].
Qed.

(** C2, as stated, fails: the loader returns a sheet that has the three
    columns and no row as a dataset, and [main] hands it to
    [generate_report], where [idxmax] raises on the empty column. *)
Lemma empty_table_is_loaded :
  len df_empty = 0%nat
  /\ has_columns df_empty
  /\ snd (read_beam_data (world_of (Ok df_empty) true) excel_path) = Ok (Some df_empty)
  /\ In (Printed (lf ++ "Generating report...")) (fst (main (world_of (Ok df_empty) true)))
  /\ snd (main (world_of (Ok df_empty) true))
     = Raise (ValueError "attempt to get argmax of an empty sequence").
Proof.
  split; [reflexivity|]. split.
  - exists 0%nat, 1%nat, 2%nat. repeat split; reflexivity.
  - split; [reflexivity|]. split; [|vm_compute; reflexivity].
    vm_compute. do 4 right. left. reflexivity.
Qed.

(** C2, amended.  The loader does not look at the number of rows: every
    table that [pd.read_excel] returns, an empty one included, is
    returned as the dataset after two lines of report, and [main] passes
    it on to [generate_report]. *)
Theorem loader_returns_every_table (w : World) (df : DataFrame) :
  read_excel w excel_path = Ok df ->
  read_beam_data w excel_path
  = ([ Printed ("Successfully read " ++ int_str (Z.of_nat (len df))
                ++ " data points from Excel file");
       Printed ("Columns: " ++ list_repr (columns df)) ],
     Ok (Some df))
  /\ main w
     = (_ <~ os_makedirs w "output" ;;
        _ <~ print "Reading beam analysis data from Excel..." ;;
        _ <~ print ("Successfully read " ++ int_str (Z.of_nat (len df))
                    ++ " data points from Excel file") ;;
        _ <~ print ("Columns: " ++ list_repr (columns df)) ;;
        _ <~ print (lf ++ "Generating report...") ;;
        _ <~ generate_report w df beam_image_path output_path ;;
        _ <~ print (lf ++ "✓ Report generation complete!") ;;
        print ("✓ Output saved to: " ++ output_path)).
Proof.
  intro H.
  assert (L : read_beam_data w excel_path
              = ([ Printed ("Successfully read " ++ int_str (Z.of_nat (len df))
                            ++ " data points from Excel file");
                   Printed ("Columns: " ++ list_repr (columns df)) ],
                 Ok (Some df))).
  { unfold read_beam_data. rewrite H. reflexivity. }
  split; [exact L|].
  unfold main. rewrite L. unfold os_makedirs.
  destruct (makedirs w "output"); [|reflexivity].
  unfold io_bind, print.
  destruct (generate_report w df beam_image_path output_path) as [ev [[]|e]];
    reflexivity.
Qed.

(** C3, as stated, fails: a sheet without the bending-moment column is
    returned by the loader as a dataset, and the [KeyError] that
    [generate_report] then raises leaves [main] uncaught. *)
Lemma missing_column_is_loaded :
  index_of "Bending Moment" (columns df_no_moment) = None
  /\ snd (read_beam_data (world_of (Ok df_no_moment) true) excel_path)
     = Ok (Some df_no_moment)
  /\ snd (main (world_of (Ok df_no_moment) true)) = Raise (KeyError "Bending Moment").
Proof. repeat split; vm_compute; reflexivity. Qed.

(** C3, amended.  The loader lets no exception escape.  When
    [pd.read_excel] raises (a missing file, an unreadable format), the
    loader prints the cause and returns [None]; [main] then prints that
    the report is aborted and ends, without calling [generate_report]. *)
Theorem read_failure_aborts (w : World) (path : string) :
  (exists ev r, read_beam_data w path = (ev, Ok r))
  /\ (forall e, read_excel w path = Raise e ->
        read_beam_data w path
        = ([Printed ("Error reading Excel file: " ++ exn_str e)], Ok None))
  /\ (forall e, makedirs w "output" = Ok tt ->
        read_excel w excel_path = Raise e ->
        main w
        = ([ MadeDirs "output";
             Printed "Reading beam analysis data from Excel...";
             Printed ("Error reading Excel file: " ++ exn_str e);
             Printed (lf ++ "✗ Failed to read beam data. Report generation aborted.") ],
           Ok tt)).
Proof.
  split; [|split].
  - unfold read_beam_data. destruct (read_excel w path); do 2 eexists; reflexivity.
  - intros e H. unfold read_beam_data. rewrite H. reflexivity.
  - intros e Hd H. unfold main, os_makedirs, read_beam_data. rewrite Hd, H. reflexivity.
Qed.

(** C4, on the code: when the sheet is read and LaTeX is missing, the
    diagnostic of [generate_report] is followed by the two confirmation
    lines of [main], although no PDF was written. *)
Theorem render_failure_still_confirms :
  main (world_of (Ok df_three) false)
  = ([ MadeDirs "output";
       Printed "Reading beam analysis data from Excel...";
       Printed "Successfully read 3 data points from Excel file";
       Printed "Columns: ['x', 'Shear force', 'Bending Moment']";
       Printed (lf ++ "Generating report...");
       Printed (lf ++ "Error generating PDF: No LaTex compiler was found");
       Printed "Make sure you have LaTeX installed (MiKTeX, TeX Live, or MacTeX)";
       Printed (lf ++ "✓ Report generation complete!");
       Printed "✓ Output saved to: output/report.pdf" ],
     Ok tt).
Proof. vm_compute. reflexivity. Qed.

(** ** The theorems at sample inputs *)

Lemma has_columns_ramp n : has_columns (df_ramp n).
Proof. exists 0%nat, 1%nat, 2%nat. repeat split; reflexivity. Defined.

Lemma table_row_selection_witness :
  (len (df_ramp 15) = 15%nat
   /\ iloc_step 1 (rows (df_ramp 15)) = rows (df_ramp 15))
  /\ (len (df_ramp 16) = 16%nat
      /\ has_columns (df_ramp 16)
      /\ nth_error (iloc_step 2 (rows (df_ramp 16))) 7 = nth_error (rows (df_ramp 16)) 14
      /\ exists lines,
           create_data_table (df_ramp 16) = Ok (table_head ++ join "" lines ++ table_tail)
           /\ List.length lines = 8%nat).
Proof.
  split.
  - split; [reflexivity|].
    destruct (table_row_selection (df_ramp 15)) as (_ & _ & H15 & _).
    exact (proj2 (H15 eq_refl)).
  - split; [reflexivity|]. split; [apply has_columns_ramp|].
    destruct (table_row_selection (df_ramp 16)) as (_ & _ & _ & H16 & _ & Ht).
    destruct (H16 eq_refl) as [L N].
    split; [apply (N 7%nat); lia|].
    destruct (Ht (has_columns_ramp 16)) as (lines & Hl & HF).
    exists lines. split; [exact Hl|].
    rewrite <- (Forall2_length HF). exact L.
Defined.

Lemma has_columns_three : has_columns df_three.
Proof. exists 0%nat, 1%nat, 2%nat. repeat split; reflexivity. Defined.

Lemma table_rows_rounded_witness :
  has_columns df_three
  /\ exists table lines,
       create_data_table df_three = Ok table
       /\ table = table_head ++ join "" lines ++ table_tail
       /\ List.length lines = 3%nat.
Proof.
  split; [apply has_columns_three|].
  destruct (table_rows_rounded df_three has_columns_three) as (table & lines & Ht & Et & HF).
  exists table, lines. split; [exact Ht|]. split; [exact Et|].
  rewrite <- (Forall2_length HF). reflexivity.
Defined.

Lemma chart_coordinates_witness :
  exists doc sfd bmd,
    report_document (world_of (Ok df_three) true) df_three beam_image_path = Ok doc
    /\ contains (NoEscape (sfd_head ++ join " " sfd ++ sfd_tail)) doc
    /\ contains (NoEscape (bmd_head ++ join " " bmd ++ bmd_tail)) doc
    /\ nth_error sfd 1 = Some "(5.0,10.0)"
    /\ nth_error bmd 1 = Some "(5.0,25.00)".
Proof.
  destruct (report_document_total (world_of (Ok df_three) true) df_three beam_image_path)
    as [doc Hdoc].
  - apply has_columns_three.
  - unfold len; simpl; lia.
  - intros ms H. vm_compute in H. injection H as <-. reflexivity.
  - destruct (chart_coordinates _ _ _ _ Hdoc)
      as (xs & vs & ms & sfd & bmd & Hx & Hv & Hm & Cs & Cb & _ & _ & Hk & _).
    exists doc, sfd, bmd. split; [exact Hdoc|]. split; [exact Cs|]. split; [exact Cb|].
    vm_compute in Hx, Hv, Hm.
    injection Hx as <-. injection Hv as <-. injection Hm as <-.
    destruct (Hk 1%nat _ _ _ eq_refl eq_refl eq_refl) as (Ks & _ & Kb & _).
    split; [rewrite Ks|rewrite Kb]; vm_compute; reflexivity.
Defined.

Lemma beam_length_extremes_witness :
  getitem df_three "x" = Ok [real 0; real 5; real 10]
  /\ (0 < len df_three)%nat
  /\ numbers [real 0; real 5; real 10]
  /\ exists hi lo,
       greatest hi [real 0; real 5; real 10]
       /\ least lo [real 0; real 5; real 10]
       /\ beam_length df_three = Ok (fsub hi lo)
       /\ beam_length df_three = Ok (real 10).
Proof.
  assert (Hx : getitem df_three "x" = Ok [real 0; real 5; real 10]) by reflexivity.
  assert (Hl : (0 < len df_three)%nat) by (unfold len; simpl; lia).
  assert (Hn : numbers [real 0; real 5; real 10]) by (repeat constructor).
  split; [exact Hx|]. split; [exact Hl|]. split; [exact Hn|].
  destruct (beam_length_extremes df_three _ Hx Hl Hn) as (hi & lo & Hg & Hs & Hb).
  exists hi, lo. repeat split; try assumption; try apply Hg; try apply Hs.
Defined.

Lemma max_shear_greatest_abs_witness :
  getitem df_three "Shear force" = Ok [real 0; real 10; real (-10)]
  /\ (0 < len df_three)%nat
  /\ numbers [real 0; real 10; real (-10)]
  /\ exists top,
       max_shear df_three = Ok top
       /\ greatest top (map fabs [real 0; real 10; real (-10)])
       /\ fleb (S754_zero false) top = true.
Proof.
  assert (Hv : getitem df_three "Shear force" = Ok [real 0; real 10; real (-10)])
    by reflexivity.
  assert (Hl : (0 < len df_three)%nat) by (unfold len; simpl; lia).
  assert (Hn : numbers [real 0; real 10; real (-10)]) by (repeat constructor).
  split; [exact Hv|]. split; [exact Hl|]. split; [exact Hn|].
  exact (max_shear_greatest_abs df_three _ Hv Hl Hn).
Defined.

Lemma max_moment_location_first_witness :
  nth_error [real 0; real 25; real 25; real 0] 1 = Some (real 25)
  /\ nth_error [real 0; real 25; real 25; real 0] 2 = Some (real 25)
  /\ max_moment_location df_tie = Ok (real 2).
Proof.
  split; [reflexivity|]. split; [reflexivity|].
  apply (max_moment_location_first df_tie
           [real 0; real 2; real 4; real 6] [real 0; real 25; real 25; real 0]
           1%nat (real 2) (real 25)).
  - reflexivity.
  - reflexivity.
  - repeat constructor.
  - reflexivity.
  - reflexivity.
  - intros v [<-|[<-|[<-|[<-|[]]]]]; reflexivity.
  - intros j v Hj Hv. destruct j as [|j]; [|lia].
    simpl in Hv. injection Hv as <-. reflexivity.
Defined.

Lemma image_block_iff_path_exists_witness :
  path_exists (world_of (Ok df_three) true) beam_image_path = false
  /\ exists doc,
       report_document (world_of (Ok df_three) true) df_three beam_image_path = Ok doc
       /\ has_image doc = false.
Proof.
  split; [reflexivity|].
  apply (proj2 (image_block_iff_path_exists (world_of (Ok df_three) true) df_three
                  beam_image_path)).
  - apply has_columns_three.
  - unfold len; simpl; lia.
  - intros ms H. vm_compute in H. injection H as <-. reflexivity.
  - reflexivity.
Defined.

Lemma loader_returns_every_table_witness :
  read_excel (world_of (Ok df_empty) true) excel_path = Ok df_empty
  /\ read_beam_data (world_of (Ok df_empty) true) excel_path
     = ([ Printed "Successfully read 0 data points from Excel file";
          Printed "Columns: ['x', 'Shear force', 'Bending Moment']" ],
        Ok (Some df_empty)).
Proof.
  split; [reflexivity|].
  destruct (loader_returns_every_table (world_of (Ok df_empty) true) df_empty eq_refl)
    as [L _].
  rewrite L. vm_compute. reflexivity.
Defined.

Lemma read_failure_aborts_witness :
  makedirs (world_of (Raise file_not_found) true) "output" = Ok tt
  /\ read_excel (world_of (Raise file_not_found) true) excel_path = Raise file_not_found
  /\ main (world_of (Raise file_not_found) true)
     = ([ MadeDirs "output";
          Printed "Reading beam analysis data from Excel...";
          Printed ("Error reading Excel file: " ++ exn_str file_not_found);
          Printed (lf ++ "✗ Failed to read beam data. Report generation aborted.") ],
        Ok tt).
Proof.
  split; [reflexivity|]. split; [reflexivity|].
  destruct (read_failure_aborts (world_of (Raise file_not_found) true) excel_path)
    as (_ & _ & H).
  exact (H file_not_found eq_refl eq_refl).
Defined.

(* ===================================================================== *)
(** * Facts about a whole run *)
(* ===================================================================== *)

Module RunFacts.
Import Py Pandas Latex Spec FloatOrder PandasFacts PyFacts ReportFacts.

(** The two outcomes of [generate_report] once the document stands, and
    the one when its assembly raises. *)
Lemma generate_report_cases w df image out :
  generate_report w df image out
  = match report_document w df image with
    | Raise e => ([], Raise e)
    | Ok doc =>
        match run_latex w (str_replace ".pdf" "" out) doc with
        | Ok _ =>
            ([ PdfWritten (str_replace ".pdf" "" out ++ ".pdf") doc;
               Printed (lf ++ "Report successfully generated: " ++ out) ],
             Ok tt)
        | Raise e =>
            ([ Printed (lf ++ "Error generating PDF: " ++ exn_str e);
               Printed "Make sure you have LaTeX installed (MiKTeX, TeX Live, or MacTeX)" ],
             Ok tt)
        end
    end.
Proof.
  unfold generate_report, lift, io_bind, try_except, generate_pdf, print.
  destruct (report_document w df image) as [doc|e]; [|reflexivity].
  destruct (run_latex w (str_replace ".pdf" "" out) doc); reflexivity.
Qed.

(** The five ways a run of [main] can go. *)
Lemma main_cases w :
  main w
  = match makedirs w "output" with
    | Raise e => ([], Raise e)
    | Ok _ =>
        match read_excel w excel_path with
        | Raise e =>
            ([ MadeDirs "output";
               Printed "Reading beam analysis data from Excel...";
               Printed ("Error reading Excel file: " ++ exn_str e);
               Printed (lf ++ "✗ Failed to read beam data. Report generation aborted.") ],
             Ok tt)
        | Ok df =>
            let loaded :=
              [ MadeDirs "output";
                Printed "Reading beam analysis data from Excel...";
                Printed ("Successfully read " ++ int_str (Z.of_nat (len df))
                         ++ " data points from Excel file");
                Printed ("Columns: " ++ list_repr (columns df));
                Printed (lf ++ "Generating report...") ] in
            match report_document w df beam_image_path with
            | Raise e => (loaded, Raise e)
            | Ok doc =>
                match run_latex w "output/report" doc with
                | Ok _ =>
                    ((loaded
                      ++ [ PdfWritten "output/report.pdf" doc;
                           Printed (lf ++ "Report successfully generated: output/report.pdf");
                           Printed (lf ++ "✓ Report generation complete!");
                           Printed "✓ Output saved to: output/report.pdf" ])%list,
                     Ok tt)
                | Raise e =>
                    ((loaded
                      ++ [ Printed (lf ++ "Error generating PDF: " ++ exn_str e);
                           Printed "Make sure you have LaTeX installed (MiKTeX, TeX Live, or MacTeX)";
                           Printed (lf ++ "✓ Report generation complete!");
                           Printed "✓ Output saved to: output/report.pdf" ])%list,
                     Ok tt)
                end
            end
        end
    end.
Proof.
  unfold main, os_makedirs, read_beam_data.
  destruct (makedirs w "output"); [|reflexivity].
  destruct (read_excel w excel_path) as [df|e]; [|reflexivity].
  cbv zeta.
  unfold try_except, lift, io_bind, io_ret, print.
  rewrite generate_report_cases.
  destruct (report_document w df beam_image_path) as [doc|e]; [|reflexivity].
  change (str_replace ".pdf" "" output_path) with "output/report".
  destruct (run_latex w "output/report" doc); reflexivity.
Qed.

(** Errors of the table and of the document *)

Lemma getitem_missing df name :
  index_of name (columns df) = None -> getitem df name = Raise (KeyError name).
Proof. unfold getitem. intros ->. reflexivity. Qed.

Lemma first_missing_cases cols :
  match first_missing cols with
  | Some name =>
      index_of name cols = None
      /\ ((name = "x")
          \/ (name = "Shear force" /\ exists jx, index_of "x" cols = Some jx)
          \/ (name = "Bending Moment"
              /\ exists jx jv, index_of "x" cols = Some jx
                               /\ index_of "Shear force" cols = Some jv))
  | None =>
      exists jx jv jm,
        index_of "x" cols = Some jx
        /\ index_of "Shear force" cols = Some jv
        /\ index_of "Bending Moment" cols = Some jm
  end.
Proof.
  unfold first_missing. cbn [find].
  destruct (index_of "x" cols) as [jx|] eqn:Ex; [|split; [assumption|now left]].
  destruct (index_of "Shear force" cols) as [jv|] eqn:Ev.
  2:{ split; [assumption|]. right; left. split; [reflexivity|]. now exists jx. }
  destruct (index_of "Bending Moment" cols) as [jm|] eqn:Em.
  2:{ split; [assumption|]. right; right. split; [reflexivity|]. now exists jx, jv. }
  now exists jx, jv, jm.
Qed.

Lemma table_line_missing cols row name :
  first_missing cols = Some name -> table_line cols row = Raise (KeyError name).
Proof.
  intro H. pose proof (first_missing_cases cols) as C. rewrite H in C.
  destruct C as [Hn [->|[[-> [jx Hx]]|[-> (jx & jv & Hx & Hv)]]]];
    unfold table_line, row_getitem.
  - rewrite Hn. reflexivity.
  - rewrite Hx, Hn. reflexivity.
  - rewrite Hx, Hv, Hn. reflexivity.
Qed.

Lemma create_data_table_empty df :
  rows df = [] -> create_data_table df = Ok (table_head ++ table_tail).
Proof.
  intro H. unfold create_data_table, iloc_step. rewrite H. reflexivity.
Qed.

Lemma create_data_table_raises df row rest e :
  rows df = row :: rest ->
  table_line (columns df) row = Raise e ->
  create_data_table df = Raise e.
Proof.
  intros H He. unfold create_data_table, iloc_step. rewrite H.
  cbn [stride_from table_loop]. rewrite He. reflexivity.
Qed.

Lemma report_document_missing w df image name :
  first_missing (columns df) = Some name ->
  report_document w df image = Raise (KeyError name).
Proof.
  intro H. pose proof (first_missing_cases (columns df)) as C. rewrite H in C.
  destruct C as [Hn C]. pose proof (getitem_missing df name Hn) as Gn.
  unfold report_document, introduction, beam_length.
  destruct C as [->|[[-> [jx Hx]]|[-> (jx & jv & Hx & Hv)]]].
  - rewrite Gn. reflexivity.
  - rewrite (getitem_has _ _ _ Hx). cbn [bind].
    unfold analysis_data, max_shear.
    destruct (rows df) as [|row rest] eqn:Er.
    + rewrite (create_data_table_empty df Er). cbn [bind]. rewrite Gn. reflexivity.
    + rewrite (create_data_table_raises df row rest (KeyError "Shear force") Er
                 (table_line_missing _ _ _ H)).
      reflexivity.
  - rewrite (getitem_has _ _ _ Hx). cbn [bind].
    unfold analysis_data, max_shear, max_moment.
    destruct (rows df) as [|row rest] eqn:Er.
    + rewrite (create_data_table_empty df Er). cbn [bind].
      rewrite (getitem_has _ _ _ Hv). cbn [bind]. rewrite Gn. reflexivity.
    + rewrite (create_data_table_raises df row rest (KeyError "Bending Moment") Er
                 (table_line_missing _ _ _ H)).
      reflexivity.
Qed.

Lemma report_document_empty w df image :
  has_columns df -> rows df = [] ->
  report_document w df image
  = Raise (ValueError "attempt to get argmax of an empty sequence").
Proof.
  intros (jx & jv & jm & Hx & Hv & Hm) Er.
  unfold report_document, introduction, beam_length, analysis_data, max_shear,
    max_moment, max_moment_location.
  rewrite (create_data_table_empty df Er).
  rewrite (getitem_has _ _ _ Hx), (getitem_has _ _ _ Hv), (getitem_has _ _ _ Hm).
  rewrite Er. reflexivity.
Qed.

Lemma idxmax_all_nan s :
  s <> [] -> forallb is_nan s = true ->
  idxmax s = Raise (ValueError "Encountered all NA values").
Proof.
  intros Hne H. unfold idxmax. destruct s; [congruence|]. rewrite H. reflexivity.
Qed.

Lemma report_document_all_nan w df image jm :
  has_columns df -> rows df <> [] ->
  index_of "Bending Moment" (columns df) = Some jm ->
  forallb is_nan (map (cell jm) (rows df)) = true ->
  report_document w df image = Raise (ValueError "Encountered all NA values").
Proof.
  intros Hc Hr Hm Hnan.
  destruct (create_data_table_total df Hc) as [table Ht].
  destruct Hc as (jx & jv & jm' & Hx & Hv & Hm').
  unfold report_document, introduction, beam_length, analysis_data, max_shear,
    max_moment, max_moment_location.
  rewrite Ht.
  rewrite (getitem_has _ _ _ Hx), (getitem_has _ _ _ Hv), (getitem_has _ _ _ Hm).
  cbn [bind]. rewrite idxmax_all_nan; [reflexivity| |assumption].
  intro E. apply map_eq_nil in E. contradiction.
Qed.

(** Maxima, minima and captions *)

Lemma fleb_antisym_feqb a b :
  number a -> number b -> fleb a b = true -> fleb b a = true -> feqb a b = true.
Proof.
  intros Na Nb H1 H2. apply feqb_rank; auto.
  apply fleb_rank in H1, H2; auto.
  destruct (rank a) as [[a1 a2] a3], (rank b) as [[b1 b2] b3]. unfold lex_lt in *.
  assert (a1 = b1) by lia. assert (a2 = b2) by lia. assert (a3 = b3) by lia.
  congruence.
Qed.

Lemma greatest_feqb s a b :
  numbers s -> greatest a s -> greatest b s -> feqb a b = true.
Proof.
  intros Hn [Ia Ha] [Ib Hb].
  apply fleb_antisym_feqb; auto; eapply numbers_in; eassumption.
Qed.

Lemma py_max_greatest l :
  l <> [] -> numbers l -> exists hi, py_max l = Ok hi /\ greatest hi l.
Proof.
  destruct l as [|a t]; [congruence|]. intros _ Hn.
  exists (np_max a t). split; [reflexivity|]. apply np_max_greatest; assumption.
Qed.

Lemma py_min_least l :
  l <> [] -> numbers l -> exists lo, py_min l = Ok lo /\ least lo l.
Proof.
  destruct l as [|a t]; [congruence|]. intros _ Hn.
  exists (np_min a t). split; [reflexivity|]. apply np_min_least; assumption.
Qed.

(** The output path *)


Ltac pick_app :=
  cbn [In];
  repeat first [left; reflexivity | right; cbn [In] | apply in_or_app; right; cbn [In]].

Tactic Notation "in_data" integer(n) :=
  eexists; split; [cbn [data In]; do n right; left; reflexivity|].

(** Blank cells *)

Lemma fleb_neg_inf v : number v -> fleb v neg_inf = true -> v = neg_inf.
Proof.
  destruct v as [s|s| |s m e]; try destruct s; intros N H;
    try reflexivity; discriminate.
Qed.

Lemma fill_nan_number x : number (fill_nan neg_inf x).
Proof. unfold fill_nan, number. destruct (is_nan x) eqn:E; [reflexivity|assumption]. Qed.

Lemma forallb_is_nan_some s v :
  In v s -> number v -> forallb is_nan s = false.
Proof.
  intros Hin Hv. destruct (forallb is_nan s) eqn:E; [|reflexivity].
  rewrite forallb_forall in E. specialize (E v Hin). unfold number in Hv. congruence.
Qed.

(** [max] skips NaN: with a number in the column, it is a greatest of
    the numbers of the column. *)
Lemma max_skips_nan s :
  (exists v, In v s /\ number v) ->
  greatest (max s) (filter (fun v => negb (is_nan v)) s).
Proof.
  intros (v & Hin & Hv).
  unfold max. rewrite (forallb_is_nan_some s v Hin Hv).
  destruct (map (fill_nan neg_inf) s) as [|a t] eqn:Em.
  { apply map_eq_nil in Em. subst s. destruct Hin. }
  assert (Hn : numbers (a :: t)).
  { rewrite <- Em. unfold numbers. apply Forall_forall. intros y Hy.
    apply in_map_iff in Hy. destruct Hy as (x & <- & _). apply fill_nan_number. }
  destruct (np_max_greatest t a Hn) as [Hg Hge]. rewrite <- Em in Hg, Hge.
  assert (Hall : forall y, In y s -> number y -> fleb y (np_max a t) = true).
  { intros y Hy Ny. apply Hge. apply in_map_iff. exists y. split; [|assumption].
    unfold fill_nan. unfold number in Ny. rewrite Ny. reflexivity. }
  split.
  - apply in_map_iff in Hg. destruct Hg as (x & Hx & Hxs).
    unfold fill_nan in Hx. destruct (is_nan x) eqn:Ex.
    + pose proof (Hall v Hin Hv) as Hle. rewrite <- Hx in Hle |- *.
      rewrite <- (fleb_neg_inf v Hv Hle).
      apply filter_In. split; [assumption|]. unfold number in Hv. rewrite Hv. reflexivity.
    + rewrite <- Hx. apply filter_In. split; [assumption|]. rewrite Ex. reflexivity.
  - intros y Hy. apply filter_In in Hy. destruct Hy as [Hy Ny].
    apply Hall; [assumption|]. unfold number. destruct (is_nan y); [discriminate|reflexivity].
Qed.

End RunFacts.

(* ===================================================================== *)
(** * Further properties of the program *)
(* ===================================================================== *)

Import RunFacts.

(** X1.  When the directory is made, the sheet is read, the document is
    assembled and LaTeX succeeds, [main] ends normally: it writes one
    PDF, at [output/report.pdf], holding the assembled document, between
    the lines of progress and the lines of confirmation. *)
Theorem main_success (w : World) (df : DataFrame) (doc : Document) :
  makedirs w "output" = Ok tt ->
  read_excel w excel_path = Ok df ->
  report_document w df beam_image_path = Ok doc ->
  run_latex w "output/report" doc = Ok tt ->
  main w
  = ([ MadeDirs "output";
       Printed "Reading beam analysis data from Excel...";
       Printed ("Successfully read " ++ int_str (Z.of_nat (len df))
                ++ " data points from Excel file");
       Printed ("Columns: " ++ list_repr (columns df));
       Printed (lf ++ "Generating report...");
       PdfWritten "output/report.pdf" doc;
       Printed (lf ++ "Report successfully generated: output/report.pdf");
       Printed (lf ++ "✓ Report generation complete!");
       Printed "✓ Output saved to: output/report.pdf" ],
     Ok tt).
Proof.
  intros Hd Hr Hdoc Hl. rewrite main_cases, Hd, Hr. cbv zeta. rewrite Hdoc, Hl.
  reflexivity.
Qed.

(** X2.  [main] never writes a PDF unless everything before succeeded:
    a written PDF is at [output/report.pdf], holds the document
    assembled from the sheet that was read, and LaTeX succeeded on it.
    No run writes more than one PDF. *)
Theorem pdf_only_after_success (w : World) :
  (forall path doc,
     In (PdfWritten path doc) (fst (main w)) ->
     path = "output/report.pdf"
     /\ exists df,
          read_excel w excel_path = Ok df
          /\ report_document w df beam_image_path = Ok doc
          /\ run_latex w "output/report" doc = Ok tt)
  /\ (List.length (filter is_pdf (fst (main w))) <= 1)%nat.
Proof.
  rewrite main_cases.
  destruct (makedirs w "output") as [[]|e0]; [|split; [intros ? ? []|simpl; lia]].
  destruct (read_excel w excel_path) as [df|e1].
  2:{ split; [|simpl; lia]. intros path doc H. cbn [fst In] in H.
      repeat (destruct H as [H|H]; [discriminate H|]). destruct H. }
  cbv zeta.
  destruct (report_document w df beam_image_path) as [doc0|e2] eqn:Edoc.
  2:{ split; [|simpl; lia]. intros path doc H. cbn [fst In] in H.
      repeat (destruct H as [H|H]; [discriminate H|]). destruct H. }
  destruct (run_latex w "output/report" doc0) as [[]|e3] eqn:El.
  - split; [|simpl; lia]. intros path doc H. cbn [fst In app] in H.
    do 5 (destruct H as [H|H]; [discriminate H|]).
    destruct H as [H|H].
    + injection H as <- <-. split; [reflexivity|].
      exists df. repeat split; assumption.
    + repeat (destruct H as [H|H]; [discriminate H|]). destruct H.
  - split; [|simpl; lia]. intros path doc H. cbn [fst In app] in H.
    repeat (destruct H as [H|H]; [discriminate H|]). destruct H.
Qed.

(** X3.  [main] ends with an uncaught exception in two cases only: the
    output directory cannot be made, or the sheet was read and the
    assembly of the document raises.  A sheet that cannot be read and a
    LaTeX run that fails never make [main] raise. *)
Theorem main_raises_iff (w : World) (e : exn) :
  snd (main w) = Raise e
  <-> makedirs w "output" = Raise e
      \/ (makedirs w "output" = Ok tt
          /\ exists df,
               read_excel w excel_path = Ok df
               /\ report_document w df beam_image_path = Raise e).
Proof.
  rewrite main_cases.
  destruct (makedirs w "output") as [[]|e0].
  2:{ cbn [snd]. split.
      - intro H. left. exact H.
      - intros [H|[H _]]; [exact H|discriminate H]. }
  destruct (read_excel w excel_path) as [df|e1].
  2:{ cbn [snd]. split; [discriminate|].
      intros [H|[_ (df & H & _)]]; discriminate H. }
  cbv zeta.
  destruct (report_document w df beam_image_path) as [doc|e2] eqn:Edoc.
  - destruct (run_latex w "output/report" doc); cbn [snd];
      (split; [discriminate|]);
      intros [H|[_ (df' & H & H')]]; try discriminate H;
      injection H as <-; rewrite Edoc in H'; discriminate H'.
  - cbn [snd]. split.
    + intro H. injection H as <-. right. split; [reflexivity|].
      exists df. split; [reflexivity|assumption].
    + intros [H|[_ (df' & H & H')]]; [discriminate H|].
      injection H as <-. rewrite Edoc in H'. injection H' as <-. reflexivity.
Qed.

(** X4.  Whatever the cause, a failing LaTeX run does not stop [main]:
    [generate_report] prints the cause and the hint, returns normally,
    and [main] adds its two lines of confirmation; no PDF is written. *)
Theorem render_failure_trace (w : World) (df : DataFrame) (doc : Document) (e : exn) :
  makedirs w "output" = Ok tt ->
  read_excel w excel_path = Ok df ->
  report_document w df beam_image_path = Ok doc ->
  run_latex w "output/report" doc = Raise e ->
  generate_report w df beam_image_path output_path
  = ([ Printed (lf ++ "Error generating PDF: " ++ exn_str e);
       Printed "Make sure you have LaTeX installed (MiKTeX, TeX Live, or MacTeX)" ],
     Ok tt)
  /\ main w
     = ([ MadeDirs "output";
          Printed "Reading beam analysis data from Excel...";
          Printed ("Successfully read " ++ int_str (Z.of_nat (len df))
                   ++ " data points from Excel file");
          Printed ("Columns: " ++ list_repr (columns df));
          Printed (lf ++ "Generating report...");
          Printed (lf ++ "Error generating PDF: " ++ exn_str e);
          Printed "Make sure you have LaTeX installed (MiKTeX, TeX Live, or MacTeX)";
          Printed (lf ++ "✓ Report generation complete!");
          Printed "✓ Output saved to: output/report.pdf" ],
        Ok tt).
Proof.
  intros Hd Hr Hdoc Hl. split.
  - rewrite generate_report_cases, Hdoc.
    change (str_replace ".pdf" "" output_path) with "output/report".
    rewrite Hl. reflexivity.
  - rewrite main_cases, Hd, Hr. cbv zeta. rewrite Hdoc, Hl. reflexivity.
Qed.

(** X5.  The line [Output saved to: output/report.pdf] is printed exactly
    when the directory was made, the sheet was read and the document was
    assembled, whether or not LaTeX then produced the PDF. *)
Theorem confirmation_iff (w : World) :
  In (Printed "✓ Output saved to: output/report.pdf") (fst (main w))
  <-> makedirs w "output" = Ok tt
      /\ exists df doc,
           read_excel w excel_path = Ok df
           /\ report_document w df beam_image_path = Ok doc.
Proof.
  rewrite main_cases.
  destruct (makedirs w "output") as [[]|e0].
  2:{ split; [intros []|intros [H _]; discriminate H]. }
  destruct (read_excel w excel_path) as [df|e1].
  2:{ split.
      - intro H. cbn [fst In] in H.
        repeat (destruct H as [H|H]; [discriminate H|]). destruct H.
      - intros [_ (df & doc & H & _)]. discriminate H. }
  cbv zeta.
  destruct (report_document w df beam_image_path) as [doc|e2] eqn:Edoc.
  - split.
    + intros _. split; [reflexivity|]. exists df, doc. split; [reflexivity|assumption].
    + intros _. destruct (run_latex w "output/report" doc);
        cbn [fst]; apply in_or_app; right; cbn [In]; do 3 right; left; reflexivity.
  - split.
    + intro H. cbn [fst In] in H.
      repeat (destruct H as [H|H]; [discriminate H|]). destruct H.
    + intros [_ (df' & doc & H & H')]. injection H as <-.
      rewrite Edoc in H'. discriminate H'.
Qed.

(** X6.  When the frame lacks one of the columns [x], [Shear force] and
    [Bending Moment], the assembly of the document raises [KeyError]
    for the first of them that is missing, whether the frame has rows or
    not; [main], having read such a sheet, ends with that exception
    uncaught and writes no PDF. *)
Theorem missing_column_raises (w : World) (df : DataFrame) (image name : string) :
  first_missing (columns df) = Some name ->
  report_document w df image = Raise (KeyError name)
  /\ (makedirs w "output" = Ok tt ->
      read_excel w excel_path = Ok df ->
      snd (main w) = Raise (KeyError name)
      /\ filter is_pdf (fst (main w)) = []).
Proof.
  intro H. split; [apply report_document_missing; assumption|].
  intros Hd Hr. rewrite main_cases, Hd, Hr. cbv zeta.
  rewrite (report_document_missing w df beam_image_path name H).
  split; reflexivity.
Qed.


(** X8.  The document is assembled exactly for the frames that have the
    three columns, at least one row, and a bending moment that is a
    number in at least one row. *)
Theorem report_document_ok_iff (w : World) (df : DataFrame) (image : string) :
  (exists doc, report_document w df image = Ok doc)
  <-> has_columns df
      /\ (0 < len df)%nat
      /\ exists ms, getitem df "Bending Moment" = Ok ms /\ forallb is_nan ms = false.
Proof.
  split.
  - intros [doc Hdoc].
    pose proof (first_missing_cases (columns df)) as C.
    destruct (first_missing (columns df)) as [name|] eqn:Ef.
    { rewrite (report_document_missing w df image name Ef) in Hdoc. discriminate Hdoc. }
    assert (Hc : has_columns df) by exact C.
    destruct C as (jx & jv & jm & Hx & Hv & Hm).
    destruct (rows df) as [|row rest] eqn:Er.
    { rewrite (report_document_empty w df image Hc Er) in Hdoc. discriminate Hdoc. }
    split; [assumption|]. split; [unfold len; rewrite Er; simpl; lia|].
    exists (map (cell jm) (rows df)). split; [apply getitem_has; assumption|].
    destruct (forallb is_nan (map (cell jm) (rows df))) eqn:En; [|reflexivity].
    rewrite (report_document_all_nan w df image jm Hc) in Hdoc;
      [discriminate Hdoc|rewrite Er; discriminate|assumption|assumption].
  - intros (Hc & Hl & ms & Hm & Hn).
    apply report_document_total; [assumption|assumption|].
    intros ms' Hm'. rewrite Hm in Hm'. injection Hm' as <-. assumption.
Qed.

(** X9.  [create_data_table] returns a table exactly when the frame has
    no row or has the three columns; on a frame with rows that lacks one
    of them it raises [KeyError] for the first that is missing. *)
Theorem create_data_table_ok_iff (df : DataFrame) :
  ((exists table, create_data_table df = Ok table)
   <-> rows df = [] \/ has_columns df)
  /\ (forall name,
        rows df <> [] ->
        first_missing (columns df) = Some name ->
        create_data_table df = Raise (KeyError name)).
Proof.
  assert (R : forall name, rows df <> [] -> first_missing (columns df) = Some name ->
                           create_data_table df = Raise (KeyError name)).
  { intros name Hr Hf. destruct (rows df) as [|row rest] eqn:Er; [congruence|].
    apply (create_data_table_raises df row rest _ Er).
    apply table_line_missing; assumption. }
  split; [|exact R]. split.
  - intros [table Ht].
    destruct (rows df) as [|row rest] eqn:Er; [now left|]. right.
    pose proof (first_missing_cases (columns df)) as C.
    destruct (first_missing (columns df)) as [name|] eqn:Ef; [|exact C].
    rewrite (R name) in Ht; [discriminate Ht|discriminate|reflexivity].
  - intros [Er|Hc].
    + eexists. apply create_data_table_empty; assumption.
    + apply create_data_table_total; assumption.
Qed.

(** X10.  For a non-empty dataset whose bending moments are numbers, the
    reported maximum moment is a greatest moment, and the reported
    location is the position of a record whose moment equals it. *)
Theorem location_attains_max (df : DataFrame) (xs ms : Series) :
  getitem df "x" = Ok xs ->
  getitem df "Bending Moment" = Ok ms ->
  (0 < len df)%nat ->
  numbers ms ->
  exists i xi mi top,
    max_moment df = Ok top
    /\ greatest top ms
    /\ max_moment_location df = Ok xi
    /\ nth_error xs i = Some xi
    /\ nth_error ms i = Some mi
    /\ feqb mi top = true.
Proof.
  intros Hx Hm Hl Hn.
  pose proof (getitem_length _ _ _ Hx) as Lx.
  pose proof (getitem_length _ _ _ Hm) as Lm.
  assert (Hne : ms <> []) by (intro E; rewrite E in Lm; simpl in Lm; lia).
  destruct (idxmax_first ms Hne Hn) as (k & Hk & b & Hb & Hge & _).
  assert (Hkl : (k < List.length xs)%nat).
  { rewrite Lx, <- Lm. apply nth_error_Some. congruence. }
  destruct (nth_error xs k) as [xk|] eqn:Exk;
    [|apply nth_error_None in Exk; lia].
  pose proof (max_greatest ms Hne Hn) as Hg.
  exists k, xk, b, (max ms). repeat split.
  - unfold max_moment. rewrite Hm. reflexivity.
  - apply Hg.
  - apply Hg.
  - unfold max_moment_location, loc. rewrite Hm. cbn [bind]. rewrite Hk. cbn [bind].
    rewrite Hx. cbn [bind]. rewrite Exk. reflexivity.
  - assumption.
  - assumption.
  - apply (greatest_feqb ms); auto.
    split; [eapply nth_error_In; eassumption|assumption].
Qed.

(** X11.  In an assembled document of a dataset whose shear forces and
    bending moments are numbers, the caption of the shear chart shows a
    least and a greatest shear force, and the caption of the moment
    chart shows a greatest moment, equal to the maximum moment of the
    key results. *)
Theorem captions_show_extremes (w : World) (df : DataFrame) (image : string)
  (doc : Document) (vs ms : Series) :
  report_document w df image = Ok doc ->
  getitem df "Shear force" = Ok vs ->
  getitem df "Bending Moment" = Ok ms ->
  numbers vs ->
  numbers ms ->
  exists lo hi top key,
    least lo vs /\ greatest hi vs /\ greatest top ms
    /\ max_moment df = Ok key /\ feqb top key = true
    /\ contains (Text ("The shear force varies from " ++ format_fixed 2 lo ++ " kN to "
                       ++ format_fixed 2 hi ++ " kN along the beam.")) doc
    /\ contains (Text ("The maximum bending moment is " ++ format_fixed 2 top
                       ++ " kN·m, ")) doc.
Proof.
  intros H Hv Hm Nv Nm. unfold report_document in H. inv_bind H.
  injection H as <-.
  unfold diagrams in E1. rewrite Hv, Hm in E1. inv_bind E1. injection E1 as <-.
  assert (Hvne : vs <> []).
  { intro Evs. subst vs. match goal with X : py_min [] = Ok _ |- _ => discriminate X end. }
  assert (Hmne : ms <> []).
  { intro Ems. subst ms. match goal with X : py_max [] = Ok _ |- _ => discriminate X end. }
  destruct (py_min_least vs Hvne Nv) as (lo & Elo & Hlo).
  destruct (py_max_greatest vs Hvne Nv) as (hi & Ehi & Hhi).
  destruct (py_max_greatest ms Hmne Nm) as (top & Etop & Htop).
  repeat match goal with
  | X : py_min vs = Ok _ |- _ => rewrite Elo in X; injection X as <-
  | X : py_max vs = Ok _ |- _ => rewrite Ehi in X; injection X as <-
  | X : py_max ms = Ok _ |- _ => rewrite Etop in X; injection X as <-
  end.
  exists lo, hi, top, (max ms).
  split; [assumption|]. split; [assumption|]. split; [assumption|].
  split; [unfold max_moment; rewrite Hm; reflexivity|].
  split; [apply (greatest_feqb ms); auto; apply max_greatest; assumption|].
  split.
  - in_data 7.
    eapply occurs_section; [|eapply occurs_subsection; [|apply occurs_here]]; pick.
  - in_data 7.
    eapply occurs_section; [|eapply occurs_subsection; [|apply occurs_here]];
      cbn [In]; [right; right; left; reflexivity|pick].
Qed.

(** X12.  An assembled document states the figures the program
    computes: the beam length with one decimal, the number of records,
    and the maximum shear, the maximum moment and its location with two
    decimals; the location closes the caption of the moment chart too. *)
Theorem key_results_shown (w : World) (df : DataFrame) (image : string)
  (doc : Document) :
  report_document w df image = Ok doc ->
  exists span shear moment location,
    beam_length df = Ok span
    /\ max_shear df = Ok shear
    /\ max_moment df = Ok moment
    /\ max_moment_location df = Ok location
    /\ contains (Text ("Total Beam Length: " ++ format_fixed 1 span ++ " m")) doc
    /\ contains (Text ("Number of Analysis Points: " ++ int_str (Z.of_nat (len df)))) doc
    /\ contains (Text ("Maximum Shear Force: " ++ format_fixed 2 shear ++ " kN")) doc
    /\ contains (Text ("Maximum Bending Moment: " ++ format_fixed 2 moment ++ " kN·m")) doc
    /\ contains (Text ("Location of Maximum Moment: " ++ format_fixed 2 location
                       ++ " m from left support")) doc
    /\ contains (Text ("occurring at " ++ format_fixed 2 location
                       ++ " m from the left support.")) doc.
Proof.
  intro H. unfold report_document in H. inv_bind H.
  injection H as <-.
  unfold introduction in E. inv_bind E. injection E as <-.
  unfold analysis_data in E0. inv_bind E0. injection E0 as <- <-.
  unfold diagrams in E1. inv_bind E1. injection E1 as <-.
  do 4 eexists.
  split; [reflexivity|]. split; [reflexivity|]. split; [reflexivity|].
  split; [reflexivity|].
  split; [|split; [|split; [|split; [|split]]]].
  - in_data 3. eapply occurs_section; [|apply occurs_here]. pick_app.
  - in_data 3. eapply occurs_section; [|apply occurs_here]. pick_app.
  - in_data 5. eapply occurs_section; [|apply occurs_here]. pick.
  - in_data 5. eapply occurs_section; [|apply occurs_here]. pick.
  - in_data 5. eapply occurs_section; [|apply occurs_here]. pick.
  - in_data 7.
    eapply occurs_section; [|eapply occurs_subsection; [|apply occurs_here]];
      cbn [In]; [right; right; left; reflexivity|pick].
Qed.

(** X13.  When the image path exists, the introduction of the assembled
    document holds the figure: placed with [h!], centred, showing the
    image at that path 400px wide, with its caption. *)
Theorem figure_block (w : World) (df : DataFrame) (image : string) (doc : Document) :
  report_document w df image = Ok doc ->
  path_exists w image = true ->
  exists body,
    In (LSection "Introduction" body) (data doc)
    /\ In (LFigure "h!" [ NoEscape "\centering";
                          Image image "width=400px";
                          Caption "Simply Supported Beam Configuration" ]) body.
Proof.
  intros H Hp. unfold report_document in H. inv_bind H.
  injection H as <-.
  unfold introduction in E. rewrite Hp in E. inv_bind E. injection E as <-.
  eexists. split; [cbn [data In]; do 3 right; left; reflexivity|].
  pick_app.
Qed.


(** X15.  The rows of the table: the first row of a non-empty dataset is
    always shown; up to 30 rows give at most 15 lines; and the table
    ends with the last row of the dataset, except that a dataset of more
    than 15 rows and an even number of them ends with the row before. *)
Theorem table_extent (df : DataFrame) :
  let selected := iloc_step (table_step df) (rows df) in
  nth_error selected 0 = nth_error (rows df) 0
  /\ ((len df <= 30)%nat -> (List.length selected <= 15)%nat)
  /\ ((0 < len df)%nat ->
      nth_error selected (List.length selected - 1)
      = nth_error (rows df) (last_shown (len df))).
Proof.
  intro selected.
  assert (Hs : (1 <= table_step df)%nat)
    by (unfold table_step; destruct (len df <=? 15)%nat; lia).
  pose proof (iloc_step_length (table_step df) (rows df) Hs) as HL.
  fold selected in HL. fold (len df) in HL.
  split; [|split].
  - unfold selected. rewrite iloc_step_nth by assumption. reflexivity.
  - intro H30. rewrite HL. unfold table_step.
    destruct (len df <=? 15)%nat eqn:E.
    + apply Nat.leb_le in E. rewrite Nat.add_sub, Nat.div_1_r. assumption.
    + apply Nat.lt_succ_r. apply Nat.Div0.div_lt_upper_bound. lia.
  - intro Hpos. unfold selected at 1. rewrite iloc_step_nth by assumption.
    f_equal. rewrite HL. unfold table_step, last_shown.
    destruct (len df <=? 15)%nat eqn:E; cbn [orb].
    + rewrite Nat.add_sub, Nat.div_1_r. lia.
    + destruct (Nat.odd (len df)) eqn:O.
      * apply Nat.odd_spec in O. destruct O as [q Hq]. rewrite Hq.
        replace (2 * q + 1 + 2 - 1)%nat with ((q + 1) * 2)%nat by lia.
        rewrite Nat.div_mul by lia. lia.
      * assert (Ev : Nat.even (len df) = true)
          by (rewrite <- Nat.negb_odd, O; reflexivity).
        apply Nat.even_spec in Ev. destruct Ev as [q Hq]. rewrite Hq.
        apply Nat.leb_gt in E.
        replace (2 * q + 2 - 1)%nat with (1 + q * 2)%nat by lia.
        rewrite Nat.div_add by lia. simpl (1 / 2)%nat. lia.
Qed.

(** X16.  Blank cells do not enter the maxima: when the moment column
    holds at least one number, the reported maximum moment is a greatest
    of the moments that are numbers; likewise the reported maximum shear
    is a greatest of the absolute values of the shear forces that are
    numbers. *)
Theorem maxima_skip_blank_cells (df : DataFrame) (vs ms : Series) :
  getitem df "Shear force" = Ok vs ->
  getitem df "Bending Moment" = Ok ms ->
  (exists v, In v vs /\ number v) ->
  (exists m, In m ms /\ number m) ->
  exists shear moment,
    max_shear df = Ok shear
    /\ greatest shear (filter (fun v => negb (is_nan v)) (map fabs vs))
    /\ max_moment df = Ok moment
    /\ greatest moment (filter (fun v => negb (is_nan v)) ms).
Proof.
  intros Hv Hm (v & Hin & Nv) Hnum.
  exists (max (map fabs vs)), (max ms).
  split; [unfold max_shear; rewrite Hv; reflexivity|].
  split; [|split; [unfold max_moment; rewrite Hm; reflexivity|]].
  - apply max_skips_nan. exists (fabs v). split; [apply in_map; assumption|].
    apply fabs_number; assumption.
  - apply max_skips_nan; assumption.
Qed.

(** ** The further properties at sample inputs *)

Lemma df_three_assembles (w : World) :
  exists doc, report_document w df_three beam_image_path = Ok doc.
Proof.
  apply report_document_total.
  - apply has_columns_three.
  - unfold len; simpl; lia.
  - intros ms H. vm_compute in H. injection H as <-. reflexivity.
Qed.

Lemma main_success_witness :
  exists doc,
    report_document (world_of (Ok df_three) true) df_three beam_image_path = Ok doc
    /\ In (PdfWritten "output/report.pdf" doc) (fst (main (world_of (Ok df_three) true)))
    /\ snd (main (world_of (Ok df_three) true)) = Ok tt.
Proof.
  destruct (df_three_assembles (world_of (Ok df_three) true)) as [doc Hdoc].
  exists doc. split; [exact Hdoc|].
  rewrite (main_success (world_of (Ok df_three) true) df_three doc
             eq_refl eq_refl Hdoc eq_refl).
  split; [cbn [fst In]; do 5 right; left; reflexivity|reflexivity].
Defined.

Lemma pdf_only_after_success_witness :
  exists doc,
    In (PdfWritten "output/report.pdf" doc) (fst (main (world_of (Ok df_three) true)))
    /\ report_document (world_of (Ok df_three) true) df_three beam_image_path = Ok doc.
Proof.
  destruct (df_three_assembles (world_of (Ok df_three) true)) as [doc Hdoc].
  exists doc.
  assert (Hin : In (PdfWritten "output/report.pdf" doc)
                   (fst (main (world_of (Ok df_three) true)))).
  { rewrite main_cases. cbv zeta. change (makedirs (world_of (Ok df_three) true) "output")
      with (@Ok unit tt).
    change (read_excel (world_of (Ok df_three) true) excel_path) with (Ok df_three).
    cbv beta iota. rewrite Hdoc.
    cbn [fst]. apply in_or_app. right. left. reflexivity. }
  split; [exact Hin|].
  destruct (proj1 (pdf_only_after_success (world_of (Ok df_three) true)) _ _ Hin)
    as (_ & df & Hr & Hd & _).
  injection Hr as <-. exact Hd.
Defined.

Lemma main_raises_iff_witness :
  makedirs world_locked "output" = Raise permission_denied
  /\ snd (main world_locked) = Raise permission_denied.
Proof.
  split; [reflexivity|].
  apply (proj2 (main_raises_iff world_locked permission_denied)).
  left. reflexivity.
Defined.

Lemma render_failure_trace_witness :
  exists doc,
    report_document (world_of (Ok df_three) false) df_three beam_image_path = Ok doc
    /\ run_latex (world_of (Ok df_three) false) "output/report" doc = Raise no_compiler
    /\ generate_report (world_of (Ok df_three) false) df_three beam_image_path output_path
       = ([ Printed (lf ++ "Error generating PDF: " ++ exn_str no_compiler);
            Printed "Make sure you have LaTeX installed (MiKTeX, TeX Live, or MacTeX)" ],
          Ok tt).
Proof.
  destruct (df_three_assembles (world_of (Ok df_three) false)) as [doc Hdoc].
  exists doc. split; [exact Hdoc|]. split; [reflexivity|].
  exact (proj1 (render_failure_trace (world_of (Ok df_three) false) df_three doc
                  no_compiler eq_refl eq_refl Hdoc eq_refl)).
Defined.

Lemma confirmation_iff_witness :
  makedirs (world_of (Ok df_three) false) "output" = Ok tt
  /\ In (Printed "✓ Output saved to: output/report.pdf")
        (fst (main (world_of (Ok df_three) false))).
Proof.
  split; [reflexivity|].
  apply (proj2 (confirmation_iff (world_of (Ok df_three) false))).
  split; [reflexivity|].
  destruct (df_three_assembles (world_of (Ok df_three) false)) as [doc Hdoc].
  exists df_three, doc. split; [reflexivity|exact Hdoc].
Defined.

Lemma missing_column_raises_witness :
  first_missing (columns df_no_moment) = Some "Bending Moment"
  /\ report_document (world_of (Ok df_no_moment) true) df_no_moment beam_image_path
     = Raise (KeyError "Bending Moment")
  /\ snd (main (world_of (Ok df_no_moment) true)) = Raise (KeyError "Bending Moment").
Proof.
  split; [reflexivity|].
  destruct (missing_column_raises (world_of (Ok df_no_moment) true) df_no_moment
              beam_image_path "Bending Moment" eq_refl) as [Hr Hm].
  split; [exact Hr|]. exact (proj1 (Hm eq_refl eq_refl)).
Defined.


Lemma report_document_ok_iff_witness :
  (exists doc, report_document world_pictured df_three beam_image_path = Ok doc)
  /\ ~ (exists doc, report_document world_pictured df_blank_moment beam_image_path = Ok doc).
Proof.
  split.
  - apply (proj2 (report_document_ok_iff world_pictured df_three beam_image_path)).
    split; [apply has_columns_three|]. split; [unfold len; simpl; lia|].
    eexists. split; reflexivity.
  - intro H.
    apply (proj1 (report_document_ok_iff world_pictured df_blank_moment beam_image_path))
      in H.
    destruct H as (_ & _ & ms & Hm & Hn).
    vm_compute in Hm. injection Hm as <-. discriminate Hn.
Defined.

Lemma create_data_table_ok_iff_witness :
  (exists table, create_data_table df_empty = Ok table)
  /\ create_data_table df_no_moment = Raise (KeyError "Bending Moment").
Proof.
  split.
  - apply (proj2 (proj1 (create_data_table_ok_iff df_empty))). left. reflexivity.
  - apply (proj2 (create_data_table_ok_iff df_no_moment)); [discriminate|reflexivity].
Defined.

Lemma location_attains_max_witness :
  numbers [real 0; real 25; real 25; real 0]
  /\ exists i xi mi top,
       max_moment df_tie = Ok top
       /\ max_moment_location df_tie = Ok xi
       /\ nth_error [real 0; real 2; real 4; real 6] i = Some xi
       /\ nth_error [real 0; real 25; real 25; real 0] i = Some mi
       /\ feqb mi top = true.
Proof.
  assert (Hn : numbers [real 0; real 25; real 25; real 0]) by (repeat constructor).
  split; [exact Hn|].
  destruct (location_attains_max df_tie
              [real 0; real 2; real 4; real 6] [real 0; real 25; real 25; real 0]
              eq_refl eq_refl ltac:(unfold len; simpl; lia) Hn)
    as (i & xi & mi & top & Ht & _ & Hl & Hx & Hm & He).
  exists i, xi, mi, top. repeat split; assumption.
Defined.

Lemma captions_show_extremes_witness :
  exists doc lo hi top,
    report_document world_pictured df_three beam_image_path = Ok doc
    /\ least lo [real 0; real 10; real (-10)]
    /\ greatest hi [real 0; real 10; real (-10)]
    /\ greatest top [real 0; real 25; real 0]
    /\ contains (Text ("The shear force varies from " ++ format_fixed 2 lo ++ " kN to "
                       ++ format_fixed 2 hi ++ " kN along the beam.")) doc.
Proof.
  destruct (df_three_assembles world_pictured) as [doc Hdoc].
  destruct (captions_show_extremes world_pictured df_three beam_image_path doc
              [real 0; real 10; real (-10)] [real 0; real 25; real 0]
              Hdoc eq_refl eq_refl ltac:(repeat constructor) ltac:(repeat constructor))
    as (lo & hi & top & key & Hlo & Hhi & Htop & _ & _ & Hc & _).
  exists doc, lo, hi, top. repeat split; try assumption;
    try apply Hlo; try apply Hhi; try apply Htop.
Defined.

Lemma key_results_shown_witness :
  exists doc,
    report_document world_pictured df_three beam_image_path = Ok doc
    /\ contains (Text "Total Beam Length: 10.0 m") doc
    /\ contains (Text "Number of Analysis Points: 3") doc
    /\ contains (Text "Maximum Shear Force: 10.00 kN") doc
    /\ contains (Text "Location of Maximum Moment: 5.00 m from left support") doc.
Proof.
  destruct (df_three_assembles world_pictured) as [doc Hdoc].
  destruct (key_results_shown world_pictured df_three beam_image_path doc Hdoc)
    as (span & shear & moment & location & Hs & Hv & Hm & Hl & C1 & C2 & C3 & _ & C5 & _).
  vm_compute in Hs, Hv, Hl.
  injection Hs as <-. injection Hv as <-. injection Hl as <-.
  exists doc. split; [exact Hdoc|].
  split; [exact C1|]. split; [exact C2|]. split; [exact C3|exact C5].
Defined.

Lemma figure_block_witness :
  path_exists world_pictured beam_image_path = true
  /\ exists doc body,
       report_document world_pictured df_three beam_image_path = Ok doc
       /\ In (LSection "Introduction" body) (data doc)
       /\ In (LFigure "h!" [ NoEscape "\centering";
                             Image beam_image_path "width=400px";
                             Caption "Simply Supported Beam Configuration" ]) body.
Proof.
  split; [reflexivity|].
  destruct (df_three_assembles world_pictured) as [doc Hdoc].
  destruct (figure_block world_pictured df_three beam_image_path doc Hdoc eq_refl)
    as (body & Hb & Hf).
  exists doc, body. repeat split; assumption.
Defined.


Lemma table_extent_witness :
  (len (df_ramp 16) <= 30)%nat
  /\ (0 < len (df_ramp 16))%nat
  /\ (List.length (iloc_step (table_step (df_ramp 16)) (rows (df_ramp 16))) <= 15)%nat
  /\ nth_error (iloc_step (table_step (df_ramp 16)) (rows (df_ramp 16))) 7
     = nth_error (rows (df_ramp 16)) 14.
Proof.
  assert (H30 : (len (df_ramp 16) <= 30)%nat) by (unfold len; simpl; lia).
  assert (H0 : (0 < len (df_ramp 16))%nat) by (unfold len; simpl; lia).
  split; [exact H30|]. split; [exact H0|].
  destruct (table_extent (df_ramp 16)) as (_ & Hb & Hlast).
  split; [exact (Hb H30)|]. exact (Hlast H0).
Defined.

Lemma maxima_skip_blank_cells_witness :
  exists shear,
    max_shear df_blank_shear = Ok shear
    /\ greatest shear [real 3; real 2]
    /\ max_shear df_blank_shear = Ok (real 3).
Proof.
  destruct (maxima_skip_blank_cells df_blank_shear
              [real (-3); nan; real 2] [real 0; real 4; nan] eq_refl eq_refl)
    as (shear & moment & Hs & Hg & _ & _).
  - exists (real (-3)). split; [now left|reflexivity].
  - exists (real 0). split; [now left|reflexivity].
  - exists shear. split; [exact Hs|]. split; [exact Hg|]. reflexivity.
Defined.
